(** * dolfinx-tutorial: two tutorial scripts

    The repository is a Jupyter book.  Two of its notebooks are modelled
    here:

    - the nonlinear Poisson notebook: module [NonlinearPoisson];
    - the Navier-Stokes (DFG 2D-3 benchmark) notebook: module [NavierStokes].

    The notebooks are scripts that call into external packages (gmsh, UFL,
    DOLFINx, PETSc, MPI, numpy, matplotlib).  A script is embedded as a
    computation in a small monad that threads the script's variables, keeps
    the ordered log of the external calls the script issues, and stops at
    the first exception.  What an external call computes is a parameter of
    the model; what the script itself does with the results is code.

    After the two models come the checks the scripts make ([Checks]) and
    further properties of the
    Navier-Stokes and nonlinear Poisson notebooks: the mesh cells
    ([MeshCells]), the inlet velocity ([InletProfile]), the recorded time
    series ([TimeSeries]), how often the loop calls what ([CallCounts]),
    and what each process prints, records and plots ([Output]). *)

From Stdlib Require Import ZArith Ascii String DecimalString Floats.
From stdpp Require Import base tactics option list.

Local Open Scope string_scope.
Local Open Scope list_scope.
Local Open Scope Z_scope.

(** * Floating-point scalars

    [PETSc.ScalarType] and numpy's [float64].  The scripts only combine
    scalars with the operations below; a model is any type that has them. *)

Class Scalar (F : Type) := {
  of_Z : Z -> F;          (* a Python int promoted to a float *)
  decimal : Z -> Z -> F;  (* the literal m * 10^e, as in 1e-6 or 0.41 *)
  fadd : F -> F -> F;
  fsub : F -> F -> F;
  fmul : F -> F -> F;
  fdiv : F -> F -> F;
  fneg : F -> F;
  fabs : F -> F;
  fmax : F -> F -> F;
  fsqrt : F -> F;
}.

(** IEEE binary64, the scalars the scripts run on. *)
Definition float_of_Z (z : Z) : float :=
  if z <? 0 then PrimFloat.opp (PrimFloat.of_uint63 (Uint63.of_Z (- z)))
  else PrimFloat.of_uint63 (Uint63.of_Z z).

(** Both [m] and the power of ten are exact in binary64 for the literals of
    the scripts, so the correctly rounded quotient is the literal's value. *)
Definition float_decimal (m e : Z) : float :=
  if e <? 0 then PrimFloat.div (float_of_Z m) (float_of_Z (10 ^ (- e)))
  else float_of_Z (m * 10 ^ e).

(** Python's [int] of a finite float: truncation toward zero. *)
Definition float_trunc (x : float) : Z :=
  match Prim2SF x with
  | S754_finite negative m e =>
      let v := if 0 <=? e then Z.pos m * 2 ^ e else Z.pos m / 2 ^ (- e) in
      if negative then - v else v
  | _ => 0
  end.

(** numpy's [maximum], which [numpy.max] folds over an array: not-a-number
    as soon as one of the two is, the larger of the two otherwise. *)
Definition float_max (a b : float) : float :=
  if PrimFloat.is_nan a then a
  else if PrimFloat.is_nan b then b
  else if PrimFloat.ltb a b then b else a.

#[global] Instance Scalar_float : Scalar float := {|
  of_Z := float_of_Z;
  decimal := float_decimal;
  fadd := PrimFloat.add;
  fsub := PrimFloat.sub;
  fmul := PrimFloat.mul;
  fdiv := PrimFloat.div;
  fneg := PrimFloat.opp;
  fabs := PrimFloat.abs;
  fmax := float_max;
  fsqrt := PrimFloat.sqrt;
|}.

(** * Scripts

    A script runs top to bottom.  It issues external calls, prints, and
    either finishes or stops at the first exception. *)

Inductive Exn :=
| AssertionError               (* a failed [assert] *)
| ValueError                   (* numpy: reduction of an empty array *)
| NameError                    (* a variable that was never assigned *)
| TypeError                    (* an operation on [None] *)
| EvalError.                   (* [eval] of a string raised *)

Inductive Event :=
| Call (api : string)          (* a call into an external package *)
| Stdout (line : string).      (* a line written by [print] *)

Inductive Result (St A : Type) : Type :=
| Done (a : A) (s : St)
| Raised (e : Exn).
Arguments Done {St A} a s.
Arguments Raised {St A} e.

(** A computation over script variables [St]: the events it leaves, in
    order, and how it ends. *)
Definition M (St A : Type) : Type := St -> list Event * Result St A.

#[global] Instance M_ret {St} : MRet (M St) :=
  fun A a s => ([], Done a s).

#[global] Instance M_bind {St} : MBind (M St) :=
  fun A B k m s =>
    match m s with
    | (l1, Done a s1) => let '(l2, r) := k a s1 in (l1 ++ l2, r)
    | (l1, Raised e) => (l1, Raised e)
    end.

Section Primitives.
Context {St : Type}.

Definition call (api : string) : M St unit :=
  fun s => ([Call api], Done tt s).

(** An external call with its result. *)
Definition ext {A} (api : string) (a : A) : M St A :=
  fun s => ([Call api], Done a s).

Definition print (line : string) : M St unit :=
  fun s => ([Stdout line], Done tt s).

Definition raise {A} (e : Exn) : M St A :=
  fun s => ([], Raised e).

Definition assert (b : bool) : M St unit :=
  if b then mret tt else raise AssertionError.

Definition get : M St St := fun s => ([], Done s s).

Definition modify (f : St -> St) : M St unit := fun s => ([], Done tt (f s)).

(** [if b: body] *)
Definition when (b : bool) (body : M St unit) : M St unit :=
  if b then body else mret tt.

(** [for x in xs: body x] *)
Fixpoint for_each {A} (xs : list A) (body : A -> M St unit) : M St unit :=
  match xs with
  | [] => mret tt
  | x :: xs' => body x ;; for_each xs' body
  end.

Definition events {A} (m : M St A) (s : St) : list Event := fst (m s).
Definition outcome {A} (m : M St A) (s : St) : Result St A := snd (m s).

(** What the script printed. *)
Definition stdout (l : list Event) : list string :=
  omap (fun e => match e with Stdout t => Some t | Call _ => None end) l.

(** The external calls, by name. *)
Definition calls (l : list Event) : list string :=
  omap (fun e => match e with Call a => Some a | Stdout _ => None end) l.

Lemma events_bind {A B} (m : M St A) (k : A -> M St B) (s : St) :
  events (m ≫= k) s =
  events m s ++ match outcome m s with
                | Done a s1 => events (k a) s1
                | Raised _ => []
                end.
Proof.
  unfold events, outcome, mbind, M_bind.
  destruct (m s) as [l1 [a s1|e]]; simpl.
  - destruct (k a s1); reflexivity.
  - symmetry. apply app_nil_r.
Qed.

Lemma outcome_bind {A B} (m : M St A) (k : A -> M St B) (s : St) :
  outcome (m ≫= k) s =
  match outcome m s with
  | Done a s1 => outcome (k a) s1
  | Raised e => Raised e
  end.
Proof.
  unfold outcome, mbind, M_bind.
  destruct (m s) as [l1 [a s1|e]]; simpl; [|reflexivity].
  destruct (k a s1); reflexivity.
Qed.

End Primitives.

(** The part of a script that works on the variables [St'], started from
    [s0]; the variables it leaves are the result. *)
Definition run_with {St St' A} (s0 : St') (m : M St' A) : M St St' :=
  fun s =>
    match m s0 with
    | (l, Done _ s') => (l, Done s' s)
    | (l, Raised e) => (l, Raised e)
    end.

(** Python's [str] of an int, as [print] and f-strings (format [d]) write it. *)
Definition str_int (z : Z) : string := NilZero.string_of_int (Z.to_int z).

(** * UFL expressions

    The symbolic expressions the notebooks build with Python operators.
    Python ints are wrapped as [IntValue]; [a - b] is [a + (-1) * b]. *)

Module UFL.

Inductive Expr :=
| IntValue (z : Z)
| SpatialCoordinate                  (* printed as x *)
| Coefficient (name : string)        (* a Function, by the variable holding it *)
| Argument (name : string)           (* a test function *)
| Indexed (e : Expr) (i : nat)       (* e[i] *)
| Sum (a b : Expr)
| Product (a b : Expr)
| Power (a b : Expr)
| Grad (e : Expr)
| Div (e : Expr)
| Dot (a b : Expr)
| Integral (e : Expr).               (* e * dx *)

Definition neg (a : Expr) : Expr := Product (IntValue (-1)) a.
Definition sub (a b : Expr) : Expr := Sum a (neg b).

(** Binding strength used when printing: a child is parenthesised when its
    parent binds stronger. *)
Definition precedence (e : Expr) : nat :=
  match e with
  | Grad _ | Div _ | Integral _ => 0
  | Sum _ _ => 1
  | Product _ _ | Dot _ _ => 2
  | Power _ _ => 3
  | Indexed _ _ => 4
  | IntValue _ | SpatialCoordinate | Coefficient _ | Argument _ => 5
  end%nat.

Definition paren (s : string) : string := String.append "(" (String.append s ")").

Definition infix (op a b : string) : string :=
  String.append a (String.append op b).

(** [str(e)] *)
Fixpoint str (e : Expr) : string :=
  let parstr (parent child : Expr) (s : string) :=
    if (precedence child <? precedence parent)%nat then paren s else s in
  match e with
  | IntValue z => str_int z
  | SpatialCoordinate => "x"
  | Coefficient n => n
  | Argument n => n
  | Indexed a i =>
      String.append (parstr e a (str a))
        (String.append "[" (String.append (str_int (Z.of_nat i)) "]"))
  | Sum a b => infix " + " (parstr e a (str a)) (parstr e b (str b))
  | Product a b => infix " * " (parstr e a (str a)) (parstr e b (str b))
  | Power a b => infix " ** " (parstr e a (str a)) (parstr e b (str b))
  | Dot a b => infix " . " (parstr e a (str a)) (parstr e b (str b))
  | Grad a => String.append "grad" (paren (str a))
  | Div a => String.append "div" (paren (str a))
  | Integral a => String.append "{ " (String.append (str a) " } * dx")
  end.

End UFL.

(** * Python's [eval] on arithmetic expressions

    The fragment: integer literals, names, subscripts, parentheses, unary
    minus and the binary operators [+], [-], [*], with Python's precedence
    and left associativity, evaluated on ints, floats and numpy arrays. *)

Module Python.

Inductive token :=
| TNum (z : Z) | TName (s : string)
| TLBracket | TRBracket | TLParen | TRParen
| TPlus | TMinus | TStar.

Definition is_digit (c : ascii) : bool :=
  let n := nat_of_ascii c in (48 <=? n)%nat && (n <=? 57)%nat.

Definition digit_value (c : ascii) : Z := Z.of_nat (nat_of_ascii c) - 48.

Definition is_alpha (c : ascii) : bool :=
  let n := nat_of_ascii c in
  ((65 <=? n)%nat && (n <=? 90)%nat) || ((97 <=? n)%nat && (n <=? 122)%nat)
  || (n =? 95)%nat.

Definition is_space (c : ascii) : bool := (nat_of_ascii c =? 32)%nat.

(** What the scanner is in the middle of. *)
Inductive pending := PNone | PNum (z : Z) | PName (s : string).

Definition flush (p : pending) : list token :=
  match p with
  | PNone => []
  | PNum z => [TNum z]
  | PName s => [TName s]
  end.

Definition symbol (c : ascii) : option token :=
  if Ascii.eqb c "["%char then Some TLBracket
  else if Ascii.eqb c "]"%char then Some TRBracket
  else if Ascii.eqb c "("%char then Some TLParen
  else if Ascii.eqb c ")"%char then Some TRParen
  else if Ascii.eqb c "+"%char then Some TPlus
  else if Ascii.eqb c "-"%char then Some TMinus
  else if Ascii.eqb c "*"%char then Some TStar
  else None.

Fixpoint scan (p : pending) (s : list ascii) : option (list token) :=
  match s with
  | [] => Some (flush p)
  | c :: s' =>
      if is_digit c then
        match p with
        | PNone => scan (PNum (digit_value c)) s'
        | PNum z => scan (PNum (10 * z + digit_value c)) s'
        | PName n => scan (PName (String.append n (String c EmptyString))) s'
        end
      else if is_alpha c then
        match p with
        | PNone => scan (PName (String c EmptyString)) s'
        | PNum _ => None
        | PName n => scan (PName (String.append n (String c EmptyString))) s'
        end
      else if is_space c then (flush p ++.) <$> scan PNone s'
      else
        t ← symbol c;
        (fun ts => flush p ++ t :: ts) <$> scan PNone s'
  end.

Definition tokenize (s : string) : option (list token) :=
  scan PNone (list_ascii_of_string s).

Inductive binop := Add | Sub | Mult.

Inductive Ast :=
| Constant (z : Z)
| Name (id : string)
| Subscript (value index : Ast)
| BinOp (left : Ast) (op : binop) (right : Ast)
| USub (operand : Ast).

(** Recursive descent; [n] bounds the depth of the descent. *)
Fixpoint p_expr (n : nat) (ts : list token) : option (Ast * list token) :=
  match n with
  | O => None
  | S n => '(a, r) ← p_term n ts; p_expr_rest n a r
  end
with p_expr_rest (n : nat) (a : Ast) (ts : list token)
  : option (Ast * list token) :=
  match n with
  | O => None
  | S n =>
      match ts with
      | TPlus :: r => '(b, r') ← p_term n r; p_expr_rest n (BinOp a Add b) r'
      | TMinus :: r => '(b, r') ← p_term n r; p_expr_rest n (BinOp a Sub b) r'
      | _ => Some (a, ts)
      end
  end
with p_term (n : nat) (ts : list token) : option (Ast * list token) :=
  match n with
  | O => None
  | S n => '(a, r) ← p_factor n ts; p_term_rest n a r
  end
with p_term_rest (n : nat) (a : Ast) (ts : list token)
  : option (Ast * list token) :=
  match n with
  | O => None
  | S n =>
      match ts with
      | TStar :: r => '(b, r') ← p_factor n r; p_term_rest n (BinOp a Mult b) r'
      | _ => Some (a, ts)
      end
  end
with p_factor (n : nat) (ts : list token) : option (Ast * list token) :=
  match n with
  | O => None
  | S n =>
      match ts with
      | TMinus :: r => '(a, r') ← p_factor n r; Some (USub a, r')
      | TPlus :: r => p_factor n r
      | _ => '(a, r) ← p_atom n ts; p_trailer n a r
      end
  end
with p_trailer (n : nat) (a : Ast) (ts : list token)
  : option (Ast * list token) :=
  match n with
  | O => None
  | S n =>
      match ts with
      | TLBracket :: r =>
          '(i, r') ← p_expr n r;
          match r' with
          | TRBracket :: r'' => p_trailer n (Subscript a i) r''
          | _ => None
          end
      | _ => Some (a, ts)
      end
  end
with p_atom (n : nat) (ts : list token) : option (Ast * list token) :=
  match n with
  | O => None
  | S n =>
      match ts with
      | TNum z :: r => Some (Constant z, r)
      | TName s :: r => Some (Name s, r)
      | TLParen :: r =>
          '(a, r') ← p_expr n r;
          match r' with
          | TRParen :: r'' => Some (a, r'')
          | _ => None
          end
      | _ => None
      end
  end.

(** The whole string is one expression. *)
Definition parse (s : string) : option Ast :=
  ts ← tokenize s;
  '(a, r) ← p_expr (7 * S (length ts)) ts;
  match r with [] => Some a | _ => None end.

(** ** Values and evaluation *)

Section Eval.
Context {F : Type} {SF : Scalar F}.

(** One column of the coordinate array DOLFINx passes to a callback: the
    array has shape (3, N), row [i] holds the [i]-th coordinate of the N
    points. *)
Record Point := { x0 : F; x1 : F; x2 : F }.

Inductive Value :=
| VInt (z : Z)
| VFloat (f : F)
| VArray (a : list F)             (* numpy array of shape (N,) *)
| VCoords (x : list Point).       (* numpy array of shape (3, N) *)

Definition row (i : Z) (x : list Point) : option (list F) :=
  if i =? 0 then Some (map x0 x)
  else if i =? 1 then Some (map x1 x)
  else if i =? 2 then Some (map x2 x)
  else None.

(** Elementwise on arrays of one shape. *)
Fixpoint zip_same (f : F -> F -> F) (a b : list F) : option (list F) :=
  match a, b with
  | [], [] => Some []
  | x :: a', y :: b' => (f x y ::.) <$> zip_same f a' b'
  | _, _ => None
  end.

Definition scalar_of (v : Value) : option F :=
  match v with
  | VInt z => Some (of_Z z)
  | VFloat f => Some f
  | _ => None
  end.

(** A binary operator: exact on two ints, on floats otherwise, broadcast
    over an array when the other operand is a scalar. *)
Definition arith (zop : Z -> Z -> Z) (fop : F -> F -> F) (a b : Value)
  : option Value :=
  match a, b with
  | VInt x, VInt y => Some (VInt (zop x y))
  | VArray x, VArray y => VArray <$> zip_same fop x y
  | VArray x, _ => s ← scalar_of b; Some (VArray (map (fun e => fop e s) x))
  | _, VArray y => s ← scalar_of a; Some (VArray (map (fun e => fop s e) y))
  | _, _ => x ← scalar_of a; y ← scalar_of b; Some (VFloat (fop x y))
  end.

Definition subscript (v i : Value) : option Value :=
  match v, i with
  | VCoords x, VInt k => VArray <$> row (if k <? 0 then k + 3 else k) x
  | VArray a, VInt k =>
      let j := if k <? 0 then k + Z.of_nat (length a) else k in
      if j <? 0 then None else VFloat <$> a !! Z.to_nat j
  | _, _ => None
  end.

Definition negative (v : Value) : option Value :=
  match v with
  | VInt z => Some (VInt (- z))
  | VFloat f => Some (VFloat (fneg f))
  | VArray a => Some (VArray (map fneg a))
  | VCoords _ => None
  end.

(** [None]: the evaluation raises (or leaves the fragment). *)
Fixpoint eval (env : string -> option Value) (e : Ast) : option Value :=
  match e with
  | Constant z => Some (VInt z)
  | Name id => env id
  | Subscript v i => a ← eval env v; k ← eval env i; subscript a k
  | BinOp l op r =>
      a ← eval env l; b ← eval env r;
      match op with
      | Add => arith Z.add fadd a b
      | Sub => arith Z.sub fsub a b
      | Mult => arith Z.mul fmul a b
      end
  | USub a => v ← eval env a; negative v
  end.

Lemma zip_same_map {A} (f : F -> F -> F) (g h : A -> F) (l : list A) :
  zip_same f (map g l) (map h l) = Some (map (fun a => f (g a) (h a)) l).
Proof.
  induction l as [|a l IH]; simpl; [reflexivity|]. rewrite IH. reflexivity.
Qed.

End Eval.

End Python.

(** * The nonlinear Poisson notebook *)

Module NonlinearPoisson.
Import UFL Python.

(** [def q(u): return 1 + u**2] *)
Definition q (u : Expr) : Expr := Sum (IntValue 1) (Power u (IntValue 2)).

(** [x = ufl.SpatialCoordinate(domain)] and the two expressions built on it *)
Definition x : Expr := SpatialCoordinate.
Definition u_ufl : Expr :=
  Sum (Sum (IntValue 1) (Indexed x 0)) (Product (IntValue 2) (Indexed x 1)).
Definition f : Expr := neg (Div (Product (q u_ufl) (Grad u_ufl))).

(** ** The external world

    What the calls into DOLFINx, PETSc and MPI return on this process. *)

Section Objects.
Context {F : Type}.

Record DirichletBC := {
  bc_value : list F;
  bc_dofs : list nat;
}.

Record NonlinearProblem := {
  residual : Expr;
  unknown : string;
  bcs : list DirichletBC;
}.

Record NewtonSolver := {
  problem : NonlinearProblem;
  convergence_criterion : string;
  rtol : F;
  report : bool;
  krylov_options : list (string * string);
}.

End Objects.
Arguments DirichletBC : clear implicits.
Arguments NonlinearProblem : clear implicits.
Arguments NewtonSolver : clear implicits.

Class World (F : Type) := {
  Mesh : Type;
  Space : Type;
  rank : nat;                                    (* domain.comm.rank *)
  create_unit_square : nat -> nat -> Mesh;
  FunctionSpace : Mesh -> string -> nat -> Space;
  topology_dim : Mesh -> nat;
  num_dofs : Space -> nat;
  (* the points at which [interpolate] calls its callback, and the degrees
     of freedom it stores for the values the callback returned *)
  interpolation_points : Space -> list (@Point F);
  nodal_values : Space -> list F -> list F;
  (* the points at which [locate_entities_boundary] calls its marker *)
  entity_points : Mesh -> nat -> list (@Point F);
  locate_entities_boundary : Mesh -> nat -> list bool -> list nat;
  locate_dofs_topological : Space -> nat -> list nat -> list nat;
  getOptionsPrefix : string;
  (* the local integral of a form, given the values of its coefficients *)
  assemble_scalar : Expr -> (string -> list F) -> F;
  allreduce_SUM : F -> F;
  allreduce_MAX : F -> F;
  format_2e : F -> string;                       (* format spec .2e *)
  (* the solver as its constructor leaves it, and one Newton solve: the
     iteration count, the convergence flag, and the unknown as it is left *)
  NewtonSolver_init : NonlinearProblem F -> NewtonSolver F;
  solve : NewtonSolver F -> list F -> Z * bool * list F;
}.

Section Notebook.
Context {F : Type} {SF : Scalar F} {W : World F}.

Local Abbreviation DirichletBC := (DirichletBC F).
Local Abbreviation NonlinearProblem := (NonlinearProblem F).
Local Abbreviation NewtonSolver := (NewtonSolver F).

Definition set_convergence_criterion (v : string) (s : NewtonSolver) :=
  {| problem := problem s; convergence_criterion := v; rtol := rtol s;
     report := report s; krylov_options := krylov_options s |}.
Definition set_rtol (v : F) (s : NewtonSolver) :=
  {| problem := problem s; convergence_criterion := convergence_criterion s;
     rtol := v; report := report s; krylov_options := krylov_options s |}.
Definition set_report (v : bool) (s : NewtonSolver) :=
  {| problem := problem s; convergence_criterion := convergence_criterion s;
     rtol := rtol s; report := v; krylov_options := krylov_options s |}.
Definition set_krylov_options (v : list (string * string)) (s : NewtonSolver) :=
  {| problem := problem s; convergence_criterion := convergence_criterion s;
     rtol := rtol s; report := report s; krylov_options := v |}.

(** ** The script *)

Local Abbreviation Script := (M unit).

(** [u_exact = lambda x: eval(str(u_ufl))]: inside the lambda the name [x]
    is the argument. *)
Definition u_exact (x : list Point) : option Value :=
  ast ← parse (str u_ufl);
  eval (fun id => if String.eqb id "x" then Some (VCoords x) else None) ast.

(** [fem.Function(V)] *)
Definition Function (V : Space) : Script (list F) :=
  ext "fem.Function" (repeat (of_Z 0) (num_dofs V)).

(** [u.interpolate(g)] for a function [u] on [V] *)
Definition interpolate (callee : string) (V : Space)
    (g : list Point -> option Value) : Script (list F) :=
  call callee;;
  match g (interpolation_points V) with
  | Some (VArray values) => mret (nodal_values V values)
  | _ => raise EvalError
  end.

Record Env := {
  domain : Mesh;
  V : Space;
  u_D : list F;
  bc : DirichletBC;
  uh : list F;
  solver : NewtonSolver;
}.

(** Cells 1 to 6: everything before the solve. *)
Definition setup : Script Env :=
  (* cell 1 *)
  domain ← ext "mesh.create_unit_square" (create_unit_square 10 10);
  (* cell 2 *)
  V ← ext "fem.FunctionSpace" (FunctionSpace domain "CG" 1);
  _ ← Function V;
  u_D ← interpolate "u_D.interpolate" V u_exact;
  let fdim := (topology_dim domain - 1)%nat in
  boundary_facets ←
    ext "mesh.locate_entities_boundary"
      (locate_entities_boundary domain fdim
         (let x := entity_points domain fdim in repeat true (length x)));
  dofs ← ext "fem.locate_dofs_topological"
           (locate_dofs_topological V fdim boundary_facets);
  bc ← ext "fem.dirichletbc" {| bc_value := u_D; bc_dofs := dofs |};
  (* cell 3 *)
  uh ← Function V;
  let v := Argument "v" in
  let F_ :=
    sub (Integral (Product (q (Coefficient "uh"))
                     (Dot (Grad (Coefficient "uh")) (Grad v))))
        (Integral (Product f v)) in
  (* cell 4 *)
  problem ← ext "fem.petsc.NonlinearProblem"
              {| residual := F_; unknown := "uh"; bcs := [bc] |};
  (* cell 5 *)
  solver ← ext "nls.petsc.NewtonSolver" (NewtonSolver_init problem);
  let solver := set_convergence_criterion "incremental" solver in
  let solver := set_rtol (decimal 1 (-6)) solver in
  let solver := set_report true solver in
  (* cell 6 *)
  call "PETSc.Options";;
  option_prefix ← ext "ksp.getOptionsPrefix" getOptionsPrefix;
  let opts :=
    [(String.append option_prefix "ksp_type", "cg");
     (String.append option_prefix "pc_type", "gamg");
     (String.append option_prefix "pc_factor_mat_solver_type", "mumps")] in
  call "ksp.setFromOptions";;
  let solver := set_krylov_options opts solver in
  mret {| domain := domain; V := V; u_D := u_D; bc := bc; uh := uh;
          solver := solver |}.

(** Cell 7: solve, assert convergence, print the iteration count.  The
    result is the unknown as the solver left it. *)
Definition cell7 (solver : NewtonSolver) (uh : list F) : Script (list F) :=
  call "log.set_log_level";;
  '(n, converged, uh) ← ext "solver.solve" (solve solver uh);
  assert converged;;
  print (String.append "Number of interations: " (str_int n));;
  mret uh.

(** [numpy.max]: raises on an empty array. *)
Definition numpy_max (a : list F) : Script F :=
  match a with
  | [] => raise ValueError
  | v :: a' => mret (fold_left fmax a' v)
  end.

(** Cell 8: the L2 error against the exact solution interpolated into a
    quadratic space, and the largest nodal difference to [u_D]. *)
Definition cell8 (e : Env) (uh : list F) : Script (F * F) :=
  V_ex ← ext "fem.FunctionSpace" (FunctionSpace (domain e) "CG" 2);
  _ ← Function V_ex;
  u_ex ← interpolate "u_ex.interpolate" V_ex u_exact;
  let coefficients name :=
    if String.eqb name "uh" then uh
    else if String.eqb name "u_ex" then u_ex else [] in
  form ← ext "fem.form"
           (Integral (Power (sub (Coefficient "uh") (Coefficient "u_ex"))
                        (IntValue 2)));
  error_local ← ext "fem.assemble_scalar" (assemble_scalar form coefficients);
  total ← ext "domain.comm.allreduce" (allreduce_SUM error_local);
  let error_L2 := fsqrt total in
  when (rank =? 0)%nat
    (print (String.append "L2-error: " (format_2e error_L2)));;
  local_max ← numpy_max (map fabs (zip_with fsub uh (u_D e)));
  error_max ← ext "domain.comm.allreduce" (allreduce_MAX local_max);
  when (rank =? 0)%nat
    (print (String.append "Error_max: " (format_2e error_max)));;
  mret (error_L2, error_max).

Definition notebook : Script (F * F) :=
  e ← setup;
  uh ← cell7 (solver e) (uh e);
  cell8 e uh.

(** ** The boundary callback *)

(** The manufactured solution at one point: [1 + x[0] + 2*x[1]], evaluated
    left to right as Python does. *)
Definition manufactured (p : Point) : F :=
  fadd (fadd (of_Z 1) (x0 p)) (fmul (of_Z 2) (x1 p)).

Lemma str_u_ufl : str u_ufl = "1 + x[0] + 2 * x[1]".
Proof. reflexivity. Qed.

Lemma parse_u_ufl :
  parse (str u_ufl) =
  Some (BinOp (BinOp (Constant 1) Add (Subscript (Name "x") (Constant 0)))
          Add (BinOp (Constant 2) Mult (Subscript (Name "x") (Constant 1)))).
Proof. vm_compute. reflexivity. Qed.

Lemma u_exact_value (x : list Point) :
  u_exact x = Some (VArray (map manufactured x)).
Proof.
  unfold u_exact. rewrite parse_u_ufl. cbn.
  rewrite !map_map.
  rewrite (zip_same_map fadd (fun p => fadd (of_Z 1) (x0 p))
             (fun p => fmul (of_Z 2) (x1 p))).
  reflexivity.
Qed.

Lemma interpolate_u_exact (callee : string) (V : Space) (s : unit) :
  interpolate callee V u_exact s =
  ([Call callee],
   Done (nodal_values V (map manufactured (interpolation_points V))) s).
Proof.
  unfold interpolate. cbv [mbind M_bind call].
  rewrite u_exact_value. reflexivity.
Qed.

(** ** What the cells before the solve leave *)

Definition the_domain : Mesh := create_unit_square 10 10.
Definition the_V : Space := FunctionSpace the_domain "CG" 1.
Definition the_u_D : list F :=
  nodal_values the_V (map manufactured (interpolation_points the_V)).
Definition the_bc : DirichletBC :=
  let fdim := (topology_dim the_domain - 1)%nat in
  {| bc_value := the_u_D;
     bc_dofs :=
       locate_dofs_topological the_V fdim
         (locate_entities_boundary the_domain fdim
            (repeat true (length (entity_points the_domain fdim)))) |}.
Definition the_problem : NonlinearProblem :=
  {| residual :=
       sub (Integral (Product (q (Coefficient "uh"))
                        (Dot (Grad (Coefficient "uh")) (Grad (Argument "v")))))
           (Integral (Product f (Argument "v")));
     unknown := "uh";
     bcs := [the_bc] |}.
Definition the_solver : NewtonSolver :=
  set_krylov_options
    [(String.append getOptionsPrefix "ksp_type", "cg");
     (String.append getOptionsPrefix "pc_type", "gamg");
     (String.append getOptionsPrefix "pc_factor_mat_solver_type", "mumps")]
    (set_report true
       (set_rtol (decimal 1 (-6))
          (set_convergence_criterion "incremental"
             (NewtonSolver_init the_problem)))).
Definition the_env : Env :=
  {| domain := the_domain; V := the_V; u_D := the_u_D; bc := the_bc;
     uh := repeat (of_Z 0) (num_dofs the_V); solver := the_solver |}.

Definition setup_events : list Event :=
  [Call "mesh.create_unit_square"; Call "fem.FunctionSpace";
   Call "fem.Function"; Call "u_D.interpolate";
   Call "mesh.locate_entities_boundary"; Call "fem.locate_dofs_topological";
   Call "fem.dirichletbc"; Call "fem.Function";
   Call "fem.petsc.NonlinearProblem"; Call "nls.petsc.NewtonSolver";
   Call "PETSc.Options"; Call "ksp.getOptionsPrefix"; Call "ksp.setFromOptions"].

Lemma setup_runs : setup () = (setup_events, Done the_env ()).
Proof.
  unfold setup.
  cbv [mbind M_bind ext call Function mret M_ret].
  rewrite interpolate_u_exact. reflexivity.
Qed.

Definition iterations_line (n : Z) : string :=
  String.append "Number of interations: " (str_int n).

Lemma cell7_runs (solver : NewtonSolver) (uh : list F) (s : unit) :
  cell7 solver uh s =
  let '(n, converged, uh') := solve solver uh in
  if converged
  then ([Call "log.set_log_level"; Call "solver.solve";
         Stdout (iterations_line n)], Done uh' s)
  else ([Call "log.set_log_level"; Call "solver.solve"],
        Raised AssertionError).
Proof.
  unfold cell7. cbv [mbind M_bind ext call print assert raise mret M_ret].
  destruct (solve solver uh) as [[n converged] uh'].
  destruct converged; reflexivity.
Qed.

(** The notebook is the three parts in sequence, each reached only when
    the one before it finished. *)
Lemma notebook_runs :
  notebook () =
  let '(l, r) := cell7 the_solver (uh the_env) () in
  match r with
  | Done uh' s => let '(l', r') := cell8 the_env uh' s in
                  (setup_events ++ l ++ l', r')
  | Raised e => (setup_events ++ l, Raised e)
  end.
Proof.
  unfold notebook. cbv [mbind M_bind]. rewrite setup_runs.
  cbn [solver the_env].
  destruct (cell7 _ _ _) as [l [uh' s|e]]; [|reflexivity].
  destruct (cell8 _ _ _) as [l' r']. reflexivity.
Qed.

(** C1: the solve returns the pair (iteration count, convergence flag);
    the script asserts the flag and prints the count only when the flag is
    true.  When the solver reports non-convergence the cell ends in the
    assertion failure without printing, and so does the whole notebook:
    nothing was printed before and the error cell is not reached. *)
Theorem convergence_asserted_before_print :
  (forall solver uh s,
     let '(n, converged, uh') := solve solver uh in
     stdout (events (cell7 solver uh) s)
       = (if converged then [iterations_line n] else [])
     /\ outcome (cell7 solver uh) s
       = (if converged then Done uh' s else Raised AssertionError))
  /\ (let '(n, converged, _) := solve the_solver (uh the_env) in
      if converged
      then exists rest, stdout (events notebook ()) = iterations_line n :: rest
      else stdout (events notebook ()) = []
           /\ outcome notebook () = Raised AssertionError).
Proof.
  split.
  - intros solver uh s. unfold events, outcome. rewrite cell7_runs.
    destruct (solve solver uh) as [[n converged] uh'].
    destruct converged; split; reflexivity.
  - unfold events, outcome. rewrite notebook_runs, cell7_runs.
    destruct (solve the_solver _) as [[n converged] uh'].
    destruct converged.
    + destruct (cell8 _ _ _) as [l' r']. cbn [fst].
      eexists. unfold stdout. rewrite !omap_app. reflexivity.
    + split; reflexivity.
Qed.

(** C8: the source term [f] is [-div((1 + u^2) grad u)] built on the UFL
    expression [u = 1 + x[0] + 2*x[1]]; the boundary callback, [eval] of
    the string form of that same expression, returns [1 + x[0] + 2*x[1]]
    at every point of every coordinate array; and the boundary function
    [u_D] the script reaches holds the interpolant of exactly these
    values. *)
Theorem source_term_and_boundary_data_agree :
  f = neg (Div (Product (Sum (IntValue 1) (Power u_ufl (IntValue 2)))
                  (Grad u_ufl)))
  /\ u_ufl = Sum (Sum (IntValue 1) (Indexed x 0))
                 (Product (IntValue 2) (Indexed x 1))
  /\ (forall x : list Point,
        u_exact x =
        Some (VArray (map (fun p => fadd (fadd (of_Z 1) (x0 p))
                                         (fmul (of_Z 2) (x1 p))) x)))
  /\ (exists l e,
        setup () = (l, Done e ())
        /\ u_D e = nodal_values (V e)
                     (map (fun p => fadd (fadd (of_Z 1) (x0 p))
                                         (fmul (of_Z 2) (x1 p)))
                        (interpolation_points (V e)))
        /\ bc_value (bc e) = u_D e).
Proof.
  split; [reflexivity|]. split; [reflexivity|]. split.
  - apply u_exact_value.
  - exists setup_events, the_env. split; [apply setup_runs|].
    split; reflexivity.
Qed.

(** ** The error cell *)

Definition the_V_ex : Space := FunctionSpace the_domain "CG" 2.
Definition the_u_ex : list F :=
  nodal_values the_V_ex (map manufactured (interpolation_points the_V_ex)).

(** The form [(uh - u_ex)**2 * dx] and the values of its coefficients. *)
Definition error_form : Expr :=
  Integral (Power (sub (Coefficient "uh") (Coefficient "u_ex")) (IntValue 2)).
Definition error_coefficients (uh : list F) (name : string) : list F :=
  if String.eqb name "uh" then uh
  else if String.eqb name "u_ex" then the_u_ex else [].

Definition error_L2 (uh : list F) : F :=
  fsqrt (allreduce_SUM (assemble_scalar error_form (error_coefficients uh))).

(** [abs(uh.x.array - u_D.x.array)] *)
Definition nodal_differences (uh : list F) : list F :=
  map fabs (zip_with fsub uh the_u_D).

Definition error_max (uh : list F) : F :=
  allreduce_MAX
    (match nodal_differences uh with
     | [] => of_Z 0
     | v :: rest => fold_left fmax rest v
     end).

Definition lines_on_rank_0 (lines : list string) : list Event :=
  if (rank =? 0)%nat then map Stdout lines else [].

Definition cell8_events (uh : list F) : list Event :=
  map Call ["fem.FunctionSpace"; "fem.Function"; "u_ex.interpolate";
            "fem.form"; "fem.assemble_scalar"; "domain.comm.allreduce"]
  ++ lines_on_rank_0 [String.append "L2-error: " (format_2e (error_L2 uh))]
  ++ match nodal_differences uh with
     | [] => []
     | _ => Call "domain.comm.allreduce"
            :: lines_on_rank_0
                 [String.append "Error_max: " (format_2e (error_max uh))]
     end.

Lemma cell8_runs (uh : list F) :
  cell8 the_env uh () =
  (cell8_events uh,
   match nodal_differences uh with
   | [] => Raised ValueError
   | _ => Done (error_L2 uh, error_max uh) ()
   end).
Proof.
  unfold cell8, cell8_events, error_L2, error_max, lines_on_rank_0,
    nodal_differences.
  cbv [mbind M_bind ext call Function mret M_ret].
  rewrite interpolate_u_exact. cbn [u_D domain the_env].
  fold the_V_ex. fold the_u_ex. fold error_form.
  change (fun name : string =>
            if String.eqb name "uh" then uh
            else if String.eqb name "u_ex" then the_u_ex else [])
    with (error_coefficients uh).
  destruct (rank =? 0)%nat;
    destruct (map fabs (zip_with fsub uh the_u_D)); reflexivity.
Qed.

End Notebook.

(** ** A small concrete world

    One process on binary64 numbers, three nodes per polynomial degree.
    The Newton solver either returns the boundary values as the solution
    after 8 iterations, or gives up after 50 without converging. *)
Module Demo.

Local Open Scope float_scope.

Definition nodes : list (@Point float) :=
  [{| x0 := 0; x1 := 0; x2 := 0 |}; {| x0 := 1; x1 := 0; x2 := 0 |};
   {| x0 := 0; x1 := 1; x2 := 0 |}; {| x0 := 0.5; x1 := 0; x2 := 0 |};
   {| x0 := 0.5; x1 := 0.5; x2 := 0 |}; {| x0 := 0; x1 := 0.5; x2 := 0 |}].

Definition squared_difference (a b : list float) : float :=
  fold_left PrimFloat.add (zip_with (fun x y => (x - y) * (x - y)) a b) 0.

Definition world (converges : bool) : World float :=
  {| Mesh := unit; Space := nat; rank := 0;
     create_unit_square := fun _ _ => tt;
     FunctionSpace := fun _ _ degree => degree;
     topology_dim := fun _ => 2%nat;
     num_dofs := fun degree => (3 * degree)%nat;
     interpolation_points := fun degree => take (3 * degree) nodes;
     nodal_values := fun _ values => values;
     entity_points := fun _ _ => take 3 nodes;
     locate_entities_boundary := fun _ _ marked => seq 0 (length marked);
     locate_dofs_topological := fun _ _ facets => facets;
     getOptionsPrefix := "nls_solve_";
     assemble_scalar := fun _ coefficient =>
       squared_difference (coefficient "uh") (coefficient "u_ex");
     allreduce_SUM := fun x => x;
     allreduce_MAX := fun x => x;
     format_2e := fun x => if PrimFloat.eqb x 0 then "0.00e+00" else "_.__e___";
     NewtonSolver_init := fun problem =>
       {| problem := problem; convergence_criterion := "residual";
          rtol := 0x1p-30; report := false; krylov_options := [] |};
     solve := fun solver uh =>
       if converges
       then (8%Z, true,
             match bcs (problem solver) with
             | bc :: _ => bc_value bc
             | [] => uh
             end)
       else (50%Z, false, uh) |}.

End Demo.

End NonlinearPoisson.

(** * The Navier-Stokes notebook (flow past a cylinder, DFG 2D-3) *)

Module NavierStokes.
Import Python.

Section Objects.
Context {F : Type}.

(** [class InletVelocity]: its one attribute is the time [t]. *)
Record InletVelocity := { self_t : F }.

(** The finite-element functions of the script, each by the values of its
    vector on this process (ghost entries included). *)
Record Functions := {
  u_inlet : list F;
  u_ : list F;
  u_s : list F;
  u_n : list F;
  u_n1 : list F;
  p_ : list F;
  phi : list F;
}.

(** The arrays that exist on process 0 only. *)
Record Diagnostics := {
  C_D : list F;
  C_L : list F;
  t_u : list F;
  t_p : list F;
  p_diff : list F;
}.

(** What one process passes to the four gathers of a time step. *)
Record Contribution := {
  drag_part : F;
  lift_part : F;
  front_part : option F;
  back_part : option F;
}.

(** matplotlib's pyplot: the current figure and the files saved so far. *)
Record Curve := { xs : list F; ys : list F; label : string }.
Record Figure := { curves : list Curve; fig_title : string }.
Record Pyplot := { current : Figure; saved : list (string * Figure) }.

End Objects.
Arguments InletVelocity : clear implicits.
Arguments Functions : clear implicits.
Arguments Diagnostics : clear implicits.
Arguments Contribution : clear implicits.
Arguments Curve : clear implicits.
Arguments Figure : clear implicits.
Arguments Pyplot : clear implicits.

Section Variables_.
Context {F Mat : Type}.

(** ** The script's variables that change *)
Record Vars := {
  t : F;
  inlet_velocity : InletVelocity F;
  fn : Functions F;
  A1 : Mat;
  b1 : list F;
  b2 : list F;
  b3 : list F;
  diag : option (Diagnostics F);
  plt : Pyplot F;
}.

Definition set_t (v : F) (s : Vars) : Vars :=
  {| t := v; inlet_velocity := inlet_velocity s; fn := fn s; A1 := A1 s;
     b1 := b1 s; b2 := b2 s; b3 := b3 s; diag := diag s; plt := plt s |}.
Definition set_inlet_velocity (v : InletVelocity F) (s : Vars) : Vars :=
  {| t := t s; inlet_velocity := v; fn := fn s; A1 := A1 s;
     b1 := b1 s; b2 := b2 s; b3 := b3 s; diag := diag s; plt := plt s |}.
Definition set_fn (v : Functions F) (s : Vars) : Vars :=
  {| t := t s; inlet_velocity := inlet_velocity s; fn := v; A1 := A1 s;
     b1 := b1 s; b2 := b2 s; b3 := b3 s; diag := diag s; plt := plt s |}.
Definition set_A1 (v : Mat) (s : Vars) : Vars :=
  {| t := t s; inlet_velocity := inlet_velocity s; fn := fn s; A1 := v;
     b1 := b1 s; b2 := b2 s; b3 := b3 s; diag := diag s; plt := plt s |}.
Definition set_b1 (v : list F) (s : Vars) : Vars :=
  {| t := t s; inlet_velocity := inlet_velocity s; fn := fn s; A1 := A1 s;
     b1 := v; b2 := b2 s; b3 := b3 s; diag := diag s; plt := plt s |}.
Definition set_b2 (v : list F) (s : Vars) : Vars :=
  {| t := t s; inlet_velocity := inlet_velocity s; fn := fn s; A1 := A1 s;
     b1 := b1 s; b2 := v; b3 := b3 s; diag := diag s; plt := plt s |}.
Definition set_b3 (v : list F) (s : Vars) : Vars :=
  {| t := t s; inlet_velocity := inlet_velocity s; fn := fn s; A1 := A1 s;
     b1 := b1 s; b2 := b2 s; b3 := v; diag := diag s; plt := plt s |}.
Definition set_diag (v : option (Diagnostics F)) (s : Vars) : Vars :=
  {| t := t s; inlet_velocity := inlet_velocity s; fn := fn s; A1 := A1 s;
     b1 := b1 s; b2 := b2 s; b3 := b3 s; diag := v; plt := plt s |}.
Definition set_plt (v : Pyplot F) (s : Vars) : Vars :=
  {| t := t s; inlet_velocity := inlet_velocity s; fn := fn s; A1 := A1 s;
     b1 := b1 s; b2 := b2 s; b3 := b3 s; diag := diag s; plt := v |}.

Definition set_u_inlet (v : list F) (f : Functions F) : Functions F :=
  {| u_inlet := v; u_ := u_ f; u_s := u_s f; u_n := u_n f; u_n1 := u_n1 f;
     p_ := p_ f; phi := phi f |}.
Definition set_u_ (v : list F) (f : Functions F) : Functions F :=
  {| u_inlet := u_inlet f; u_ := v; u_s := u_s f; u_n := u_n f;
     u_n1 := u_n1 f; p_ := p_ f; phi := phi f |}.
Definition set_u_s (v : list F) (f : Functions F) : Functions F :=
  {| u_inlet := u_inlet f; u_ := u_ f; u_s := v; u_n := u_n f;
     u_n1 := u_n1 f; p_ := p_ f; phi := phi f |}.
Definition set_u_n (v : list F) (f : Functions F) : Functions F :=
  {| u_inlet := u_inlet f; u_ := u_ f; u_s := u_s f; u_n := v;
     u_n1 := u_n1 f; p_ := p_ f; phi := phi f |}.
Definition set_u_n1 (v : list F) (f : Functions F) : Functions F :=
  {| u_inlet := u_inlet f; u_ := u_ f; u_s := u_s f; u_n := u_n f;
     u_n1 := v; p_ := p_ f; phi := phi f |}.
Definition set_p_ (v : list F) (f : Functions F) : Functions F :=
  {| u_inlet := u_inlet f; u_ := u_ f; u_s := u_s f; u_n := u_n f;
     u_n1 := u_n1 f; p_ := v; phi := phi f |}.
Definition set_phi (v : list F) (f : Functions F) : Functions F :=
  {| u_inlet := u_inlet f; u_ := u_ f; u_s := u_s f; u_n := u_n f;
     u_n1 := u_n1 f; p_ := p_ f; phi := v |}.

End Variables_.
Arguments Vars : clear implicits.

(** The compiled forms and the three Krylov solvers, by their variables. *)
Inductive Form := a1 | L1 | a2 | L2 | a3 | L3 | drag | lift.
Inductive Solver := solver1 | solver2 | solver3.
Inductive BCs := bcu | bcp.

(** ** The external world

    What the calls into gmsh, DOLFINx, PETSc, MPI and numpy return on this
    process.  Assembly and boundary-condition routines read the current
    values of the functions their forms refer to. *)
Class World (F : Type) := {
  Mat : Type;
  rank : nat;                        (* mesh.comm.rank *)
  size : nat;                        (* mesh.comm.size *)
  (* numpy and libm *)
  np_sin : F -> F;
  np_pi : F;
  float_pow : F -> Z -> F;
  np_allclose : list F -> list F -> bool;
  int : F -> Z;
  (* gmsh *)
  getEntities : list (nat * nat);
  getBoundary : list (nat * nat) -> list (nat * nat);
  getCenterOfMass : nat -> nat -> list F;
  (* DOLFINx and PETSc *)
  num_dofs_V : nat;
  num_dofs_Q : nat;
  interpolation_points_V : list (@Point F);
  nodal_values_V : list (list F) -> list F;
  create_matrix : Form -> Mat;
  assembled : Form -> Mat;           (* assemble_matrix(a) then A.assemble() *)
  zeroEntries : Mat -> Mat;
  assemble_matrix : Form -> Functions F -> Mat -> Mat;
  assemble : Mat -> Mat;
  assemble_vector : Form -> Functions F -> list F -> list F;
  apply_lifting : Form -> BCs -> Functions F -> list F -> list F;
  ghostUpdate : list F -> list F;
  set_bc : BCs -> Functions F -> list F -> list F;
  (* solve(b, x): the solution left in x and the converged reason the
     solver object keeps *)
  ksp_solve : Solver -> Mat -> list F -> list F -> list F * Z;
  scatter_forward : list F -> list F;
  assemble_scalar : Form -> Functions F -> F;
  front_cells : list nat;            (* colliding_cells.links(0) *)
  back_cells : list nat;             (* colliding_cells.links(1) *)
  (* p_.eval(point, cells): the entry [0] of the returned array *)
  eval_p : list F -> F * F * F -> list nat -> F;
  (* what the other processes pass to the gathers of step i *)
  others : nat -> nat -> Contribution F;
  (* files *)
  os_path_exists : string -> bool;
  loadtxt : string -> list (list F);
  (* V.dofmap.index_map_bs, Q.dofmap.index_map_bs,
     V.dofmap.index_map.size_global *)
  index_map_bs_V : Z;
  index_map_bs_Q : Z;
  size_global_V : Z;
}.

Section Notebook.
Context {F : Type} {SF : Scalar F} {W : World F}.

Local Abbreviation InletVelocity := (InletVelocity F).
Local Abbreviation Functions := (Functions F).
Local Abbreviation Diagnostics := (Diagnostics F).
Local Abbreviation Contribution := (Contribution F).
Local Abbreviation Pyplot := (Pyplot F).
Local Abbreviation Figure := (Figure F).
Local Abbreviation Vars := (Vars F Mat).

(** An external call that leaves its result in a script variable. *)
Definition update (api : string) (f : Vars -> Vars) : M Vars unit :=
  fun s => ([Call api], Done tt (f s)).

(** ** Constants of the script *)
Definition L : F := decimal 22 (-1).
Definition H : F := decimal 41 (-2).
Definition r : F := decimal 5 (-2).
Definition gdim : nat := 2.
Definition model_rank : nat := 0.
Definition T : F := of_Z 8.
Definition dt : F := fdiv (of_Z 1) (of_Z 1600).
Definition num_steps : nat := Z.to_nat (int (fdiv T dt)).
(* points[0] and points[1] *)
Definition points_0 : F * F * F := (decimal 15 (-2), decimal 2 (-1), of_Z 0).
Definition points_1 : F * F * F := (decimal 25 (-2), decimal 2 (-1), of_Z 0).

(** [InletVelocity.__call__]: an array of shape (gdim, N), zero but for
    row 0, the parabolic profile scaled by [sin(t pi / 8)]. *)
Definition InletVelocity_call (self : InletVelocity) (x : list Point)
  : list (list F) :=
  let values := repeat (repeat (of_Z 0) (length x)) gdim in
  let profile (p : Point) :=
    fdiv
      (fmul
         (fmul
            (fmul (fmul (of_Z 4) (decimal 15 (-1)))
               (np_sin (fdiv (fmul (self_t self) np_pi) (of_Z 8))))
            (x1 p))
         (fsub (decimal 41 (-2)) (x1 p)))
      (float_pow (decimal 41 (-2)) 2) in
  <[0%nat := map profile x]> values.

(** [u_inlet.interpolate(inlet_velocity)] *)
Definition interpolate_inlet : M Vars unit :=
  update "u_inlet.interpolate"
    (fun s =>
       set_fn (set_u_inlet
                 (nodal_values_V
                    (InletVelocity_call (inlet_velocity s)
                       interpolation_points_V))
                 (fn s)) s).

(** ** One time step *)

(** [with b.localForm() as loc: loc.set(0)] *)
Definition zero (b : list F) : list F := map (fun _ => of_Z 0) b.

(** [y.axpy(alpha, x)]: y = y + alpha * x, entry by entry *)
Definition axpy (alpha : F) (x y : list F) : list F :=
  zip_with (fun yj xj => fadd yj (fmul alpha xj)) y x.

(** Step 1: tentative velocity step *)
Definition tentative_velocity : M Vars unit :=
  update "A1.zeroEntries" (fun s => set_A1 (zeroEntries (A1 s)) s);;
  update "assemble_matrix"
    (fun s => set_A1 (assemble_matrix a1 (fn s) (A1 s)) s);;
  update "A1.assemble" (fun s => set_A1 (assemble (A1 s)) s);;
  call "b1.localForm";;
  update "loc.set" (fun s => set_b1 (zero (b1 s)) s);;
  update "assemble_vector"
    (fun s => set_b1 (assemble_vector L1 (fn s) (b1 s)) s);;
  update "apply_lifting"
    (fun s => set_b1 (apply_lifting a1 bcu (fn s) (b1 s)) s);;
  update "b1.ghostUpdate" (fun s => set_b1 (ghostUpdate (b1 s)) s);;
  update "set_bc" (fun s => set_b1 (set_bc bcu (fn s) (b1 s)) s);;
  update "solver1.solve"
    (fun s =>
       set_fn (set_u_s (fst (ksp_solve solver1 (A1 s) (b1 s) (u_s (fn s))))
                 (fn s)) s);;
  update "u_s.x.scatter_forward"
    (fun s => set_fn (set_u_s (scatter_forward (u_s (fn s))) (fn s)) s).

(** Step 2: pressure correction step, then [p_ = p_ + phi] *)
Definition pressure_correction : M Vars unit :=
  call "b2.localForm";;
  update "loc.set" (fun s => set_b2 (zero (b2 s)) s);;
  update "assemble_vector"
    (fun s => set_b2 (assemble_vector L2 (fn s) (b2 s)) s);;
  update "apply_lifting"
    (fun s => set_b2 (apply_lifting a2 bcp (fn s) (b2 s)) s);;
  update "b2.ghostUpdate" (fun s => set_b2 (ghostUpdate (b2 s)) s);;
  update "set_bc" (fun s => set_b2 (set_bc bcp (fn s) (b2 s)) s);;
  update "solver2.solve"
    (fun s =>
       set_fn (set_phi
                 (fst (ksp_solve solver2 (assembled a2) (b2 s) (phi (fn s))))
                 (fn s)) s);;
  update "phi.x.scatter_forward"
    (fun s => set_fn (set_phi (scatter_forward (phi (fn s))) (fn s)) s);;
  update "p_.vector.axpy"
    (fun s =>
       set_fn (set_p_ (axpy (of_Z 1) (phi (fn s)) (p_ (fn s))) (fn s)) s);;
  update "p_.x.scatter_forward"
    (fun s => set_fn (set_p_ (scatter_forward (p_ (fn s))) (fn s)) s).

(** Step 3: velocity correction step *)
Definition velocity_correction : M Vars unit :=
  call "b3.localForm";;
  update "loc.set" (fun s => set_b3 (zero (b3 s)) s);;
  update "assemble_vector"
    (fun s => set_b3 (assemble_vector L3 (fn s) (b3 s)) s);;
  update "b3.ghostUpdate" (fun s => set_b3 (ghostUpdate (b3 s)) s);;
  update "solver3.solve"
    (fun s =>
       set_fn (set_u_ (fst (ksp_solve solver3 (assembled a3) (b3 s)
                              (u_ (fn s))))
                 (fn s)) s);;
  update "u_.x.scatter_forward"
    (fun s => set_fn (set_u_ (scatter_forward (u_ (fn s))) (fn s)) s).

(** Update variable with solution from this time step:
    [loc_n.copy(loc_n1)] then [loc_.copy(loc_n)]; [x.copy(y)] copies x
    into y. *)
Definition update_history : M Vars unit :=
  call "u_.vector.localForm";;
  call "u_n.vector.localForm";;
  call "u_n1.vector.localForm";;
  update "loc_n.copy"
    (fun s => set_fn (set_u_n1 (u_n (fn s)) (fn s)) s);;
  update "loc_.copy"
    (fun s => set_fn (set_u_n (u_ (fn s)) (fn s)) s).

(** [mesh.comm.gather(value, root=0)]: on the root the list of every
    process's value, in rank order; [None] elsewhere. *)
Definition gathered {A} (own : A) (other : nat -> A) : list A :=
  map (fun k => if (k =? rank)%nat then own else other k) (seq 0 size).

Definition gather {A} (own : A) (other : nat -> A)
  : M Vars (option (list A)) :=
  ext "mesh.comm.gather"
    (if (rank =? 0)%nat then Some (gathered own other) else None).

(** The pressure at a probe point, where this process owns a cell that
    contains it. *)
Definition probe (point : F * F * F) (cells : list nat)
  : M Vars (option F) :=
  if (0 <? length cells)%nat
  then s ← get;
       pressure ← ext "p_.eval" (eval_p (p_ (fn s)) point (take 1 cells));
       mret (Some pressure)
  else mret None.

(** Python's [sum] of a list: from the int 0, left to right. *)
Definition sum (l : list F) : F := fold_left fadd l (of_Z 0).

(** [for pressure in p_front: if pressure is not None:
        p_diff[i] = pressure[0]; break] *)
Fixpoint choose_front (i : nat) (p_front : list (option F))
    (p_diff : list F) : list F :=
  match p_front with
  | [] => p_diff
  | Some pressure :: _ => <[i := pressure]> p_diff
  | None :: rest => choose_front i rest p_diff
  end.

(** [for pressure in p_back: if pressure is not None:
        p_diff[i] -= pressure[0]; break] *)
Fixpoint choose_back (i : nat) (p_back : list (option F))
    (p_diff : list F) : list F :=
  match p_back with
  | [] => p_diff
  | Some pressure :: _ =>
      match p_diff !! i with
      | Some v => <[i := fsub v pressure]> p_diff
      | None => p_diff
      end
  | None :: rest => choose_back i rest p_diff
  end.

(** The body of [if mesh.comm.rank == 0:] at step [i]. *)
Definition record (i : nat) (t : F)
    (drag_coeff lift_coeff : list F) (p_front p_back : list (option F))
    (d : Diagnostics) : Diagnostics :=
  {| t_u := <[i := t]> (t_u d);
     t_p := <[i := fsub t (fdiv dt (of_Z 2))]> (t_p d);
     C_D := <[i := sum drag_coeff]> (C_D d);
     C_L := <[i := sum lift_coeff]> (C_L d);
     p_diff := choose_back i p_back (choose_front i p_front (p_diff d)) |}.

(** Compute physical quantities: gather the contributions of all
    processes on process 0 and record them there. *)
Definition physical_quantities (i : nat) : M Vars unit :=
  s ← get;
  drag_local ← ext "assemble_scalar" (assemble_scalar drag (fn s));
  drag_coeff ← gather drag_local (fun k => drag_part (others i k));
  lift_local ← ext "assemble_scalar" (assemble_scalar lift (fn s));
  lift_coeff ← gather lift_local (fun k => lift_part (others i k));
  p_front ← probe points_0 front_cells;
  p_front ← gather p_front (fun k => front_part (others i k));
  p_back ← probe points_1 back_cells;
  p_back ← gather p_back (fun k => back_part (others i k));
  when (rank =? 0)%nat
    match drag_coeff, lift_coeff, p_front, p_back, diag s with
    | Some drag_coeff, Some lift_coeff, Some p_front, Some p_back, Some d =>
        modify (set_diag
                  (Some (record i (t s) drag_coeff lift_coeff p_front p_back d)))
    | _, _, _, _, None => raise NameError
    | _, _, _, _, _ => raise TypeError
    end.

(** The body of [for i in range(num_steps):] up to the history update:
    the clock, the inlet condition, the three steps of the scheme, the
    output files, the history. *)
Definition advance : M Vars unit :=
  call "progress.update";;
  (* Update current time step *)
  modify (fun s => set_t (fadd (t s) dt) s);;
  (* Update inlet velocity *)
  modify (fun s => set_inlet_velocity {| self_t := t s |} s);;
  interpolate_inlet;;
  tentative_velocity;;
  pressure_correction;;
  velocity_correction;;
  (* Write solutions to file *)
  call "vtx_u.write";;
  call "vtx_p.write";;
  update_history.

(** The body of [for i in range(num_steps):] *)
Definition time_step (i : nat) : M Vars unit :=
  advance;;
  physical_quantities i.

Definition time_loop : M Vars unit :=
  for_each (seq 0 num_steps) time_step.

(** ** What the cells before the loop leave *)

Definition zeros (n : nat) : list F := replicate n (of_Z 0).

Definition initial : Vars :=
  {| t := of_Z 0;
     inlet_velocity := {| self_t := of_Z 0 |};
     fn := {| u_inlet :=
                nodal_values_V
                  (InletVelocity_call {| self_t := of_Z 0 |}
                     interpolation_points_V);
              u_ := zeros num_dofs_V;
              u_s := zeros num_dofs_V;
              u_n := zeros num_dofs_V;
              u_n1 := zeros num_dofs_V;
              p_ := zeros num_dofs_Q;
              phi := zeros num_dofs_Q |};
     A1 := create_matrix a1;
     b1 := zeros num_dofs_V;
     b2 := zeros num_dofs_Q;
     b3 := zeros num_dofs_V;
     diag :=
       if (rank =? 0)%nat
       then Some {| C_D := zeros num_steps; C_L := zeros num_steps;
                    t_u := zeros num_steps; t_p := zeros num_steps;
                    p_diff := zeros num_steps |}
       else None;
     plt := {| current := {| curves := []; fig_title := "" |}; saved := [] |} |}.

(** ** Running one time step *)

Definition advance_events : list Event :=
  Eval cbv in
  map Call
    ["progress.update"; "u_inlet.interpolate";
     "A1.zeroEntries"; "assemble_matrix"; "A1.assemble"; "b1.localForm";
     "loc.set"; "assemble_vector"; "apply_lifting"; "b1.ghostUpdate";
     "set_bc"; "solver1.solve"; "u_s.x.scatter_forward";
     "b2.localForm"; "loc.set"; "assemble_vector"; "apply_lifting";
     "b2.ghostUpdate"; "set_bc"; "solver2.solve"; "phi.x.scatter_forward";
     "p_.vector.axpy"; "p_.x.scatter_forward";
     "b3.localForm"; "loc.set"; "assemble_vector"; "b3.ghostUpdate";
     "solver3.solve"; "u_.x.scatter_forward";
     "vtx_u.write"; "vtx_p.write";
     "u_.vector.localForm"; "u_n.vector.localForm"; "u_n1.vector.localForm";
     "loc_n.copy"; "loc_.copy"].

(** The variables after [advance]. *)
Definition advanced (s : Vars) : Vars :=
  match outcome advance s with
  | Done _ s' => s'
  | Raised _ => s
  end.

Lemma advance_runs (s : Vars) :
  advance s = (advance_events, Done tt (advanced s)).
Proof. vm_compute. reflexivity. Qed.

(** From here on [advanced] is used through the lemmas below. *)
#[global] Opaque advanced.

(** The clock and the inlet object. *)
Lemma advanced_t (s : Vars) : t (advanced s) = fadd (t s) dt.
Proof. vm_compute. reflexivity. Qed.



(** The history. *)
Lemma advanced_u_n (s : Vars) : u_n (fn (advanced s)) = u_ (fn (advanced s)).
Proof. vm_compute. reflexivity. Qed.

Lemma advanced_u_n1 (s : Vars) : u_n1 (fn (advanced s)) = u_n (fn s).
Proof. vm_compute. reflexivity. Qed.

(** The pressure. *)
Lemma advanced_p_ (s : Vars) :
  p_ (fn (advanced s)) =
  scatter_forward (axpy (of_Z 1) (phi (fn (advanced s))) (p_ (fn s))).
Proof. vm_compute. reflexivity. Qed.

Lemma advanced_diag (s : Vars) : diag (advanced s) = diag s.
Proof. vm_compute. reflexivity. Qed.

Lemma advanced_plt (s : Vars) : plt (advanced s) = plt s.
Proof. vm_compute. reflexivity. Qed.

(** What this process passes to the four gathers, from its variables. *)
Definition probed (point : F * F * F) (cells : list nat) (s : Vars)
  : option F :=
  if (0 <? length cells)%nat
  then Some (eval_p (p_ (fn s)) point (take 1 cells))
  else None.

Definition own (s : Vars) : Contribution :=
  {| drag_part := assemble_scalar drag (fn s);
     lift_part := assemble_scalar lift (fn s);
     front_part := probed points_0 front_cells s;
     back_part := probed points_1 back_cells s |}.

(** The four gathered lists of step [i], as process 0 receives them. *)
Definition drag_coeff (i : nat) (s : Vars) : list F :=
  gathered (drag_part (own s)) (fun k => drag_part (others i k)).
Definition lift_coeff (i : nat) (s : Vars) : list F :=
  gathered (lift_part (own s)) (fun k => lift_part (others i k)).
Definition p_front (i : nat) (s : Vars) : list (option F) :=
  gathered (front_part (own s)) (fun k => front_part (others i k)).
Definition p_back (i : nat) (s : Vars) : list (option F) :=
  gathered (back_part (own s)) (fun k => back_part (others i k)).

Definition probe_events (cells : list nat) : list Event :=
  if (0 <? length cells)%nat then [Call "p_.eval"] else [].

Definition physical_quantities_events : list Event :=
  [Call "assemble_scalar"; Call "mesh.comm.gather";
   Call "assemble_scalar"; Call "mesh.comm.gather"]
  ++ probe_events front_cells ++ [Call "mesh.comm.gather"]
  ++ probe_events back_cells ++ [Call "mesh.comm.gather"].

Lemma physical_quantities_runs (i : nat) (s : Vars) :
  physical_quantities i s =
  (physical_quantities_events,
   if (rank =? 0)%nat
   then match diag s with
        | Some d =>
            Done tt
              (set_diag
                 (Some (record i (t s) (drag_coeff i s) (lift_coeff i s)
                          (p_front i s) (p_back i s) d)) s)
        | None => Raised NameError
        end
   else Done tt s).
Proof.
  unfold physical_quantities, physical_quantities_events, probe_events,
    drag_coeff, lift_coeff, p_front, p_back, own, probed, probe, gather.
  cbv [mbind M_bind mret M_ret get ext when modify raise].
  cbn [drag_part lift_part front_part back_part].
  destruct (0 <? length front_cells)%nat, (0 <? length back_cells)%nat,
    (rank =? 0)%nat; try reflexivity; destruct (diag s); reflexivity.
Qed.

(** The variables after one whole time step. *)
Definition stepped (i : nat) (s : Vars) : Vars :=
  let s' := advanced s in
  if (rank =? 0)%nat
  then match diag s' with
       | Some d =>
           set_diag
             (Some (record i (t s') (drag_coeff i s') (lift_coeff i s')
                      (p_front i s') (p_back i s') d)) s'
       | None => s'
       end
  else s'.

Definition time_step_events : list Event :=
  advance_events ++ physical_quantities_events.

(** On process 0 the arrays exist. *)
Definition arrays_exist (s : Vars) : Prop :=
  rank = 0%nat -> is_Some (diag s).

Lemma time_step_runs (i : nat) (s : Vars) :
  arrays_exist s ->
  time_step i s = (time_step_events, Done tt (stepped i s))
  /\ arrays_exist (stepped i s).
Proof.
  intros Hs. unfold time_step, stepped, time_step_events, arrays_exist in *.
  cbv [mbind M_bind]. rewrite advance_runs, physical_quantities_runs.
  rewrite advanced_diag.
  destruct (Nat.eqb_spec rank 0) as [Hr|Hr].
  - destruct (Hs Hr) as [d ->]. split; [reflexivity|]. intros _. eexists.
    reflexivity.
  - split; [reflexivity | intros; contradiction].
Qed.

Lemma initial_arrays_exist : arrays_exist initial.
Proof.
  intros Hr. unfold initial. cbn [diag]. rewrite Hr. eexists. reflexivity.
Qed.

Lemma stepped_keeps {A} (proj : Vars -> A) (i : nat) (s : Vars) :
  (forall v s', proj (set_diag v s') = proj s') ->
  proj (stepped i s) = proj (advanced s).
Proof.
  intros Hproj. unfold stepped. destruct (rank =? 0)%nat; [|reflexivity].
  destruct (diag (advanced s)); [apply Hproj | reflexivity].
Qed.

Lemma stepped_fn (i : nat) (s : Vars) : fn (stepped i s) = fn (advanced s).
Proof. apply stepped_keeps. reflexivity. Qed.

Lemma stepped_t (i : nat) (s : Vars) : t (stepped i s) = t (advanced s).
Proof. apply stepped_keeps. reflexivity. Qed.

Lemma stepped_inlet_velocity (i : nat) (s : Vars) :
  inlet_velocity (stepped i s) = inlet_velocity (advanced s).
Proof. apply stepped_keeps. reflexivity. Qed.

(** ** Running the loop *)

(** The variables after the steps [l], in order. *)
Definition run (l : list nat) (s : Vars) : Vars :=
  fold_left (fun s i => stepped i s) l s.

Lemma for_each_time_step (l : list nat) (s : Vars) :
  arrays_exist s ->
  for_each l time_step s
    = (concat (map (fun _ => time_step_events) l), Done tt (run l s))
  /\ arrays_exist (run l s).
Proof.
  revert s. induction l as [|i l IH]; intros s Hs.
  - split; [reflexivity | exact Hs].
  - destruct (time_step_runs i s Hs) as [Hstep Hs'].
    destruct (IH _ Hs') as [Hrest Hend].
    split; [|exact Hend].
    cbn [for_each map concat run fold_left]. cbv [mbind M_bind].
    rewrite Hstep. fold (run l (stepped i s)). rewrite Hrest. reflexivity.
Qed.

(** The variables at the start of iteration [k] of the notebook's loop. *)
Definition state_after (k : nat) : Vars := run (seq 0 k) initial.

Lemma state_after_S (k : nat) :
  state_after (S k) = stepped k (state_after k).
Proof.
  unfold state_after, run. rewrite seq_S, fold_left_app. reflexivity.
Qed.

Lemma loop_prefix_runs (k : nat) :
  for_each (seq 0 k) time_step initial
    = (concat (map (fun _ => time_step_events) (seq 0 k)),
       Done tt (state_after k))
  /\ arrays_exist (state_after k).
Proof. apply for_each_time_step, initial_arrays_exist. Qed.

(** ** The splitting scheme in one iteration *)

(** The calls that make up the scheme, in the order they are issued. *)
Definition scheme_calls (l : list Event) : list string :=
  List.filter
    (fun c => existsb (String.eqb c)
                ["solver1.solve"; "solver2.solve"; "p_.vector.axpy";
                 "solver3.solve"])
    (calls l).

Lemma time_step_events_always (i : nat) (s : Vars) :
  events (time_step i) s = time_step_events.
Proof.
  unfold events, time_step, time_step_events. cbv [mbind M_bind].
  rewrite advance_runs, physical_quantities_runs. reflexivity.
Qed.

Lemma scheme_calls_app (l1 l2 : list Event) :
  scheme_calls (l1 ++ l2) = scheme_calls l1 ++ scheme_calls l2.
Proof.
  unfold scheme_calls, calls. rewrite omap_app. apply List.filter_app.
Qed.

Lemma scheme_calls_time_step :
  scheme_calls time_step_events =
  ["solver1.solve"; "solver2.solve"; "p_.vector.axpy"; "solver3.solve"].
Proof.
  unfold time_step_events, physical_quantities_events, probe_events.
  rewrite !scheme_calls_app.
  destruct (0 <? length front_cells)%nat, (0 <? length back_cells)%nat;
    reflexivity.
Qed.

Lemma scheme_calls_loop (start n : nat) :
  length (scheme_calls
            (concat (map (fun _ => time_step_events) (seq start n))))
  = (4 * n)%nat.
Proof.
  revert start. induction n as [|n IH]; intros start; [reflexivity|].
  cbn [seq map concat]. rewrite scheme_calls_app, length_app, IH.
  rewrite scheme_calls_time_step. cbn [length]. lia.
Qed.

(** The same world, but with the three solvers reporting the converged
    reasons [reason] instead of their own. *)
Definition with_reasons
    (reason : Solver -> Mat -> list F -> list F -> Z) : World F :=
  {| Mat := Mat; rank := rank; size := size;
     np_sin := np_sin; np_pi := np_pi; float_pow := float_pow;
     np_allclose := np_allclose; int := int;
     getEntities := getEntities; getBoundary := getBoundary;
     getCenterOfMass := getCenterOfMass;
     num_dofs_V := num_dofs_V; num_dofs_Q := num_dofs_Q;
     interpolation_points_V := interpolation_points_V;
     nodal_values_V := nodal_values_V;
     create_matrix := create_matrix; assembled := assembled;
     zeroEntries := zeroEntries; assemble_matrix := assemble_matrix;
     assemble := assemble; assemble_vector := assemble_vector;
     apply_lifting := apply_lifting; ghostUpdate := ghostUpdate;
     set_bc := set_bc;
     ksp_solve := fun k A b x => (fst (ksp_solve k A b x), reason k A b x);
     scatter_forward := scatter_forward;
     assemble_scalar := assemble_scalar;
     front_cells := front_cells; back_cells := back_cells;
     eval_p := eval_p; others := others;
     os_path_exists := os_path_exists; loadtxt := loadtxt;
     index_map_bs_V := index_map_bs_V; index_map_bs_Q := index_map_bs_Q;
     size_global_V := size_global_V |}.

End Notebook.

Section Scheme.
Context {F : Type} {SF : Scalar F} {W : World F}.

Local Abbreviation Functions := (Functions F).
Local Abbreviation Vars := (Vars F Mat).

Lemma time_step_ignores_reasons reason (i : nat) (s : Vars) :
  @time_step F SF (with_reasons reason) i s = time_step i s.
Proof. vm_compute. reflexivity. Qed.

Lemma for_each_ext {St A} (f g : A -> M St unit) (l : list A) (s : St) :
  (forall a s', f a s' = g a s') -> for_each l f s = for_each l g s.
Proof.
  intros Hfg. revert s. induction l as [|a l IH]; intros s; [reflexivity|].
  cbn [for_each]. cbv [mbind M_bind]. rewrite Hfg.
  destruct (g a s) as [l1 [[] s1|e]]; [|reflexivity].
  rewrite IH. reflexivity.
Qed.

(** The functions as step 1, step 2 and step 3 of a time step find them,
    and what the three solves and the pressure update leave. *)
Definition fn0 (s : Vars) : Functions :=
  set_u_inlet
    (nodal_values_V
       (InletVelocity_call {| self_t := fadd (t s) dt |} interpolation_points_V))
    (fn s).

Definition tentative (s : Vars) : list F :=
  let A := assemble (assemble_matrix a1 (fn0 s) (zeroEntries (A1 s))) in
  let b := set_bc bcu (fn0 s)
             (ghostUpdate
                (apply_lifting a1 bcu (fn0 s)
                   (assemble_vector L1 (fn0 s) (zero (b1 s))))) in
  scatter_forward (fst (ksp_solve solver1 A b (u_s (fn s)))).

Definition fn1 (s : Vars) : Functions := set_u_s (tentative s) (fn0 s).

Definition correction (s : Vars) : list F :=
  let b := set_bc bcp (fn1 s)
             (ghostUpdate
                (apply_lifting a2 bcp (fn1 s)
                   (assemble_vector L2 (fn1 s) (zero (b2 s))))) in
  scatter_forward (fst (ksp_solve solver2 (assembled a2) b (phi (fn s)))).

Definition pressure (s : Vars) : list F :=
  scatter_forward (axpy (of_Z 1) (correction s) (p_ (fn s))).

Definition fn2 (s : Vars) : Functions :=
  set_p_ (pressure s) (set_phi (correction s) (fn1 s)).

Definition corrected (s : Vars) : list F :=
  let b := ghostUpdate (assemble_vector L3 (fn2 s) (zero (b3 s))) in
  scatter_forward (fst (ksp_solve solver3 (assembled a3) b (u_ (fn s)))).

Lemma advanced_functions (s : Vars) :
  u_s (fn (advanced s)) = tentative s
  /\ phi (fn (advanced s)) = correction s
  /\ p_ (fn (advanced s)) = pressure s
  /\ u_ (fn (advanced s)) = corrected s.
Proof. repeat split; vm_compute; reflexivity. Qed.

Lemma axpy_one (x y : list F) :
  Forall (fun v => fmul (of_Z 1) v = v) x ->
  axpy (of_Z 1) x y = zip_with fadd y x.
Proof.
  intros Hx. revert y. unfold axpy.
  induction Hx as [|v x Hv _ IH]; intros [|w y]; try reflexivity.
  cbn [zip_with]. rewrite Hv, IH. reflexivity.
Qed.

(** C2: one iteration of the time loop is the three steps of the scheme in
    order.  Whatever the variables hold and whatever the solvers return,
    the iteration issues the same calls, among them exactly: the solve of
    step 1, the solve of step 2, the update [p_ = p_ + phi], the solve of
    step 3.  Each solver is called once, on the system assembled just
    before, and its solution is taken as it comes: the converged reason is
    never read (any other reasons leave the iteration unchanged), so
    nothing is retried and nothing is handled.  The whole loop runs the
    body [num_steps] times and finishes.  ([1 * v = v] holds for every
    binary64 number [v]; it is what makes [axpy(1, phi)] the sum.) *)
Theorem splitting_scheme_transcribed (i : nat) (s : Vars) :
  Forall (fun v => fmul (of_Z 1) v = v) (correction s) ->
  events (time_step i) s = time_step_events
  /\ scheme_calls time_step_events
     = ["solver1.solve"; "solver2.solve"; "p_.vector.axpy"; "solver3.solve"]
  /\ u_s (fn (stepped i s)) = tentative s
  /\ phi (fn (stepped i s)) = correction s
  /\ p_ (fn (stepped i s))
     = scatter_forward (zip_with fadd (p_ (fn s)) (correction s))
  /\ u_ (fn (stepped i s)) = corrected s
  /\ (forall reason,
        @time_step F SF (with_reasons reason) i s = time_step i s)
  /\ outcome time_loop initial = Done tt (state_after num_steps)
  /\ length (scheme_calls (events time_loop initial)) = (4 * num_steps)%nat.
Proof.
  intros Hone.
  destruct (advanced_functions s) as (Hs & Hphi & Hp & Hu).
  destruct (loop_prefix_runs num_steps) as [Hloop _].
  rewrite !stepped_fn.
  split; [apply time_step_events_always|].
  split; [apply scheme_calls_time_step|].
  split; [exact Hs|]. split; [exact Hphi|].
  split; [rewrite Hp; unfold pressure; rewrite (axpy_one _ _ Hone);
          reflexivity|].
  split; [exact Hu|].
  split; [intros reason; apply time_step_ignores_reasons|].
  unfold outcome, events, time_loop. rewrite Hloop. cbn [fst snd].
  split; [reflexivity | apply scheme_calls_loop].
Qed.

End Scheme.

(** ** The velocity history *)

Section History.
Context {F : Type} {SF : Scalar F} {W : World F}.

Local Abbreviation Vars := (Vars F Mat).

(** The two copies of the end of an iteration, in the order they are
    issued. *)
Definition history_copies (l : list Event) : list string :=
  List.filter
    (fun c => existsb (String.eqb c) ["loc_n.copy"; "loc_.copy"])
    (calls l).

Lemma history_copies_time_step :
  history_copies time_step_events = ["loc_n.copy"; "loc_.copy"].
Proof.
  unfold time_step_events, physical_quantities_events, probe_events.
  destruct (0 <? length front_cells)%nat, (0 <? length back_cells)%nat;
    reflexivity.
Qed.

Lemma time_step_from_state_after (k : nat) :
  time_step k (state_after k)
  = (time_step_events, Done tt (state_after (S k))).
Proof.
  rewrite state_after_S.
  apply (time_step_runs k (state_after k)), loop_prefix_runs.
Qed.

(** What one time step does to the three velocities, from any variables. *)
Lemma stepped_history (i : nat) (s : Vars) :
  u_ (fn (stepped i s)) = corrected s
  /\ u_n (fn (stepped i s)) = corrected s
  /\ u_n1 (fn (stepped i s)) = u_n (fn s).
Proof.
  destruct (advanced_functions s) as (_ & _ & _ & Hu).
  rewrite stepped_fn, advanced_u_n, advanced_u_n1, Hu. auto.
Qed.

(** C9: the loop keeps the velocity history.  Take the variables [s0]
    with which the loop enters iteration [k], [s1] after that iteration
    and [s2] after the next.  Iteration [k] computes its velocity, the
    solution of the velocity correction step on [s0], into [u_]; its
    end-of-iteration update first copies [u_n] into [u_n1] and then [u_]
    into [u_n], in this order.  So at the start of the next iteration
    [u_n] holds the velocity just computed and [u_n1] what [u_n] held
    before, and one iteration later [u_n] holds the velocity of iteration
    [k + 1] and [u_n1] that of iteration [k].  Before the first iteration
    both are zero. *)
Theorem velocity_history_kept (k : nat) :
  exists s0 s1 s2 : Vars,
    outcome (for_each (seq 0 k) time_step) initial = Done tt s0
    /\ outcome (time_step k) s0 = Done tt s1
    /\ outcome (time_step (S k)) s1 = Done tt s2
    /\ outcome (for_each (seq 0 (S (S k))) time_step) initial = Done tt s2
    /\ history_copies (events (time_step k) s0) = ["loc_n.copy"; "loc_.copy"]
    /\ u_ (fn s1) = corrected s0
    /\ u_n (fn s1) = corrected s0
    /\ u_n1 (fn s1) = u_n (fn s0)
    /\ u_n (fn s2) = corrected s1
    /\ u_n1 (fn s2) = corrected s0
    /\ u_n (fn initial) = zeros num_dofs_V
    /\ u_n1 (fn initial) = zeros num_dofs_V.
Proof.
  exists (state_after k), (state_after (S k)), (state_after (S (S k))).
  unfold outcome, events.
  rewrite (proj1 (loop_prefix_runs k)), (proj1 (loop_prefix_runs (S (S k)))).
  rewrite !time_step_from_state_after. cbn [fst snd].
  destruct (stepped_history k (state_after k)) as (H1 & H2 & H3).
  destruct (stepped_history (S k) (state_after (S k))) as (H4 & H5 & H6).
  rewrite <- !state_after_S in *.
  split; [reflexivity|]. split; [reflexivity|]. split; [reflexivity|].
  split; [reflexivity|]. split; [apply history_copies_time_step|].
  split; [exact H1|]. split; [exact H2|]. split; [exact H3|].
  split; [exact H5|]. split; [rewrite H6; exact H2|].
  split; reflexivity.
Qed.

End History.

(** ** The diagnostics on process 0 *)

Section Recorded.
Context {F : Type} {SF : Scalar F} {W : World F}.

Local Abbreviation Diagnostics := (Diagnostics F).
Local Abbreviation Vars := (Vars F Mat).

(** The first entry of a gathered list that is not [None]. *)
Fixpoint first_found (l : list (option F)) : option F :=
  match l with
  | [] => None
  | Some v :: _ => Some v
  | None :: rest => first_found rest
  end.

Lemma choose_front_first (i : nat) (l : list (option F)) (pd : list F) :
  choose_front i l pd =
  match first_found l with
  | Some v => <[i := v]> pd
  | None => pd
  end.
Proof. induction l as [|[v|] l IH]; simpl; auto. Qed.

Lemma choose_back_first (i : nat) (l : list (option F)) (pd : list F) :
  choose_back i l pd =
  match first_found l, pd !! i with
  | Some v, Some w => <[i := fsub w v]> pd
  | _, _ => pd
  end.
Proof.
  induction l as [|[v|] l IH]; simpl; auto.
Qed.

(** What [p_diff[i]] ends up as, from the two choices. *)
Definition pressure_difference (front back : option F) : F :=
  match front, back with
  | Some f, Some b => fsub f b
  | Some f, None => f
  | None, Some b => fsub (of_Z 0) b
  | None, None => of_Z 0
  end.

Lemma p_diff_entry (i : nat) (pf pb : list (option F)) (pd : list F) :
  pd !! i = Some (of_Z 0) ->
  choose_back i pb (choose_front i pf pd) !! i
  = Some (pressure_difference (first_found pf) (first_found pb)).
Proof.
  intros Hi. assert (Hlen : (i < length pd)%nat) by (eapply lookup_lt_Some; eauto).
  rewrite choose_back_first, choose_front_first. unfold pressure_difference.
  destruct (first_found pf) as [f|], (first_found pb) as [b|].
  - rewrite list_lookup_insert_eq by exact Hlen.
    rewrite list_lookup_insert_eq by (rewrite length_insert; exact Hlen).
    reflexivity.
  - apply list_lookup_insert_eq, Hlen.
  - rewrite Hi. apply list_lookup_insert_eq, Hlen.
  - exact Hi.
Qed.

Lemma p_diff_other (i j : nat) (pf pb : list (option F)) (pd : list F) :
  i <> j ->
  choose_back i pb (choose_front i pf pd) !! j = pd !! j.
Proof.
  intros Hij. rewrite choose_back_first, choose_front_first.
  destruct (first_found pb) as [b|], (first_found pf) as [f|];
    repeat match goal with
           | |- context [match ?o with _ => _ end] => destruct o
           end;
    rewrite ?list_lookup_insert_ne by exact Hij; reflexivity.
Qed.

Lemma p_diff_length (i : nat) (pf pb : list (option F)) (pd : list F) :
  length (choose_back i pb (choose_front i pf pd)) = length pd.
Proof.
  rewrite choose_back_first, choose_front_first.
  destruct (first_found pb) as [b|], (first_found pf) as [f|];
    repeat match goal with
           | |- context [match ?o with _ => _ end] => destruct o
           end;
    rewrite ?length_insert; reflexivity.
Qed.

(** The variables with which step [j] computes its physical quantities. *)
Definition at_step (j : nat) : Vars := advanced (state_after j).

(** Entry [j] of the five arrays holds what step [j] recorded. *)
Definition entry_recorded (d : Diagnostics) (j : nat) : Prop :=
  t_u d !! j = Some (t (at_step j))
  /\ t_p d !! j = Some (fsub (t (at_step j)) (fdiv dt (of_Z 2)))
  /\ C_D d !! j = Some (sum (drag_coeff j (at_step j)))
  /\ C_L d !! j = Some (sum (lift_coeff j (at_step j)))
  /\ p_diff d !! j
     = Some (pressure_difference (first_found (p_front j (at_step j)))
               (first_found (p_back j (at_step j)))).

(** The arrays after [k] steps: entries below [k] recorded, entries of
    [p_diff] from [k] on still zero. *)
Record arrays_after (k : nat) (d : Diagnostics) : Prop := {
  len_t_u : length (t_u d) = num_steps;
  len_t_p : length (t_p d) = num_steps;
  len_C_D : length (C_D d) = num_steps;
  len_C_L : length (C_L d) = num_steps;
  len_p_diff : length (p_diff d) = num_steps;
  below : forall j, (j < k)%nat -> (j < num_steps)%nat -> entry_recorded d j;
  above : forall j, (k <= j)%nat -> (j < num_steps)%nat ->
                    p_diff d !! j = Some (of_Z 0);
}.

Lemma lookup_zeros (n j : nat) : (j < n)%nat -> zeros n !! j = Some (of_Z 0).
Proof.
  intros Hj. unfold zeros. apply lookup_replicate_2. exact Hj.
Qed.

Lemma arrays_after_record (k : nat) (d : Diagnostics) :
  arrays_after k d ->
  arrays_after (S k)
    (record k (t (at_step k)) (drag_coeff k (at_step k))
       (lift_coeff k (at_step k)) (p_front k (at_step k))
       (p_back k (at_step k)) d).
Proof.
  intros [Ltu Ltp Lcd Lcl Lpd Hbelow Habove].
  split; cbn [record t_u t_p C_D C_L p_diff];
    rewrite ?length_insert, ?p_diff_length; auto.
  - intros j Hj Hn. destruct (decide (j = k)) as [->|Hjk].
    + unfold entry_recorded. cbn [record t_u t_p C_D C_L p_diff].
      rewrite !list_lookup_insert_eq by lia.
      rewrite p_diff_entry by (apply Habove; lia). auto.
    + destruct (Hbelow j ltac:(lia) Hn) as (H1 & H2 & H3 & H4 & H5).
      unfold entry_recorded. cbn [record t_u t_p C_D C_L p_diff].
      rewrite !list_lookup_insert_ne by auto.
      rewrite p_diff_other by auto. auto.
  - intros j Hj Hn. rewrite p_diff_other by lia. apply Habove; lia.
Qed.

Lemma diag_state_after (k : nat) :
  rank = 0%nat -> exists d, diag (state_after k) = Some d /\ arrays_after k d.
Proof.
  intros Hr. induction k as [|k (d & Hd & Hinv)].
  - unfold state_after, run, initial. cbn [seq fold_left diag]. rewrite Hr.
    eexists. split; [reflexivity|].
    split; cbn [t_u t_p C_D C_L p_diff]; unfold zeros;
      rewrite ?length_replicate; auto.
    + intros j Hj. lia.
    + intros j _ Hj. apply lookup_zeros, Hj.
  - rewrite state_after_S. unfold stepped. rewrite Hr. cbn [Nat.eqb].
    rewrite advanced_diag, Hd. unfold set_diag. cbn [diag].
    fold (at_step k).
    exists (record k (t (at_step k)) (drag_coeff k (at_step k))
              (lift_coeff k (at_step k)) (p_front k (at_step k))
              (p_back k (at_step k)) d).
    split; [reflexivity|].
    exact (arrays_after_record k d Hinv).
Qed.

(** The variables with which step [j] computes its physical quantities
    are those the loop body reaches after the first [j] steps and the
    advance of step [j]. *)
Lemma loop_then_advance_runs (j : nat) :
  (for_each (seq 0 j) time_step;; advance) initial
  = (concat (map (fun _ => time_step_events) (seq 0 j)) ++ advance_events,
     Done tt (at_step j)).
Proof.
  cbv [mbind M_bind]. rewrite (proj1 (loop_prefix_runs j)), advance_runs.
  reflexivity.
Qed.




End Recorded.

(** ** What depends on the rank *)

Section Ranks.
Context {F : Type} {SF : Scalar F} {W : World F}.

Local Abbreviation Vars := (Vars F Mat).

(** The same world seen from the process of rank [r]. *)
Definition with_rank (r : nat) : World F :=
  {| Mat := Mat; rank := r; size := size;
     np_sin := np_sin; np_pi := np_pi; float_pow := float_pow;
     np_allclose := np_allclose; int := int;
     getEntities := getEntities; getBoundary := getBoundary;
     getCenterOfMass := getCenterOfMass;
     num_dofs_V := num_dofs_V; num_dofs_Q := num_dofs_Q;
     interpolation_points_V := interpolation_points_V;
     nodal_values_V := nodal_values_V;
     create_matrix := create_matrix; assembled := assembled;
     zeroEntries := zeroEntries; assemble_matrix := assemble_matrix;
     assemble := assemble; assemble_vector := assemble_vector;
     apply_lifting := apply_lifting; ghostUpdate := ghostUpdate;
     set_bc := set_bc; ksp_solve := ksp_solve;
     scatter_forward := scatter_forward;
     assemble_scalar := assemble_scalar;
     front_cells := front_cells; back_cells := back_cells;
     eval_p := eval_p; others := others;
     os_path_exists := os_path_exists; loadtxt := loadtxt;
     index_map_bs_V := index_map_bs_V; index_map_bs_Q := index_map_bs_Q;
     size_global_V := size_global_V |}.

(** The sentence of the specification: the script has no aggregation or
    selection of its own that depends on the rank, so from the same
    variables a time step leaves the same variables on every process,
    whatever its rank. *)
Definition no_rank_dependent_logic : Prop :=
  forall (r r' i : nat) (s : Vars),
    outcome (@time_step F SF (with_rank r) i) s
    = outcome (@time_step F SF (with_rank r') i) s.

(** The calls into the communication layer. *)
Definition communication (l : list Event) : list string :=
  List.filter (String.eqb "mesh.comm.gather") (calls l).

Lemma communication_app (l1 l2 : list Event) :
  communication (l1 ++ l2) = communication l1 ++ communication l2.
Proof.
  unfold communication, calls. rewrite omap_app. apply List.filter_app.
Qed.

Lemma communication_time_step :
  communication time_step_events
  = ["mesh.comm.gather"; "mesh.comm.gather"; "mesh.comm.gather";
     "mesh.comm.gather"].
Proof.
  unfold time_step_events, physical_quantities_events, probe_events.
  rewrite !communication_app.
  destruct (0 <? length front_cells)%nat, (0 <? length back_cells)%nat;
    reflexivity.
Qed.

Lemma stepped_diag (i : nat) (s : Vars) :
  diag (stepped i s) =
  if (rank =? 0)%nat
  then record i (t (advanced s)) (drag_coeff i (advanced s))
         (lift_coeff i (advanced s)) (p_front i (advanced s))
         (p_back i (advanced s)) <$> diag s
  else diag s.
Proof.
  unfold stepped. destruct (rank =? 0)%nat; [|apply advanced_diag].
  rewrite advanced_diag. destruct (diag s) as [d|] eqn:Hd; [reflexivity|].
  rewrite advanced_diag, Hd. reflexivity.
Qed.

(** C4, as amended: communication is delegated to the external layer
    through blocking calls issued in sequence: every time step issues the
    same four gathers, in the same order, on every process and whatever
    the variables hold.  But what is done with the gathered values is
    logic of the script, and it depends on the rank.  With [s_a] the
    variables the step reaches when it comes to the gathers: on a process
    of another rank the step ends there, nothing is recorded; on process
    0 the step goes on to write entry [i] of the arrays: the clock, the
    sums (from 0, in rank order) of the gathered drag and lift
    contributions, and the first gathered front pressure that is not
    [None], from which the first gathered back pressure that is not
    [None] is then subtracted. *)
Theorem gathers_delegated_aggregation_on_process_0 (i : nat) (s : Vars) :
  communication (events (time_step i) s)
  = ["mesh.comm.gather"; "mesh.comm.gather"; "mesh.comm.gather";
     "mesh.comm.gather"]
  /\ (forall r, events (@time_step F SF (with_rank r) i) s
                = events (time_step i) s)
  /\ exists s_a : Vars,
       outcome advance s = Done tt s_a
       /\ (rank <> 0%nat -> outcome (time_step i) s = Done tt s_a)
       /\ (rank = 0%nat ->
           forall d : Diagnostics F, diag s = Some d ->
           exists d' : Diagnostics F,
             outcome (time_step i) s = Done tt (set_diag (Some d') s_a)
             /\ t_u d' = <[i := t s_a]> (t_u d)
             /\ t_p d' = <[i := fsub (t s_a) (fdiv dt (of_Z 2))]> (t_p d)
             /\ C_D d'
                = <[i := fold_left fadd
                          (gathered (assemble_scalar drag (fn s_a))
                             (fun k => drag_part (others i k)))
                          (of_Z 0)]> (C_D d)
             /\ C_L d'
                = <[i := fold_left fadd
                          (gathered (assemble_scalar lift (fn s_a))
                             (fun k => lift_part (others i k)))
                          (of_Z 0)]> (C_L d)
             /\ p_diff d'
                = let chosen :=
                    match first_found (p_front i s_a) with
                    | Some pressure => <[i := pressure]> (p_diff d)
                    | None => p_diff d
                    end in
                  match first_found (p_back i s_a), chosen !! i with
                  | Some pressure, Some v => <[i := fsub v pressure]> chosen
                  | _, _ => chosen
                  end).
Proof.
  split; [rewrite time_step_events_always; apply communication_time_step|].
  split.
  { intros r. rewrite !time_step_events_always. reflexivity. }
  exists (advanced s). unfold outcome, time_step. cbv [mbind M_bind].
  rewrite advance_runs, physical_quantities_runs, advanced_diag. cbn [snd].
  split; [reflexivity|]. split.
  - intros Hr. apply Nat.eqb_neq in Hr. rewrite Hr. reflexivity.
  - intros Hr d Hd. rewrite Hr, Hd. cbn [Nat.eqb].
    eexists. split; [reflexivity|].
    cbn [record t_u t_p C_D C_L p_diff].
    split; [reflexivity|]. split; [reflexivity|].
    split; [reflexivity|]. split; [reflexivity|].
    rewrite choose_back_first, choose_front_first. reflexivity.
Qed.

End Ranks.

(** ** The notebook, cell by cell *)

Section Cells.
Context {F : Type} {SF : Scalar F} {W : World F}.

Local Abbreviation Diagnostics := (Diagnostics F).
Local Abbreviation Vars := (Vars F Mat).

(** The tags of the boundary curves, by the physical group they go to. *)
Record Tags := {
  inflow : list nat;
  outflow : list nat;
  walls : list nat;
  obstacle : list nat;
}.

(** The body of [for boundary in boundaries:], on the centre of mass. *)
Definition tag (boundary : nat * nat) (center_of_mass : list F) (g : Tags)
  : Tags :=
  let half_H := fdiv H (of_Z 2) in
  let half_L := fdiv L (of_Z 2) in
  if np_allclose center_of_mass [of_Z 0; half_H; of_Z 0] then
    {| inflow := inflow g ++ [boundary.2]; outflow := outflow g;
       walls := walls g; obstacle := obstacle g |}
  else if np_allclose center_of_mass [L; half_H; of_Z 0] then
    {| inflow := inflow g; outflow := outflow g ++ [boundary.2];
       walls := walls g; obstacle := obstacle g |}
  else if np_allclose center_of_mass [half_L; H; of_Z 0]
          || np_allclose center_of_mass [half_L; of_Z 0; of_Z 0] then
    {| inflow := inflow g; outflow := outflow g;
       walls := walls g ++ [boundary.2]; obstacle := obstacle g |}
  else
    {| inflow := inflow g; outflow := outflow g; walls := walls g;
       obstacle := obstacle g ++ [boundary.2] |}.

Fixpoint tag_boundaries (boundaries : list (nat * nat)) (g : Tags)
  : M unit Tags :=
  match boundaries with
  | [] => mret g
  | boundary :: rest =>
      center_of_mass ←
        ext "gmsh.model.occ.getCenterOfMass"
          (getCenterOfMass boundary.1 boundary.2);
      tag_boundaries rest (tag boundary center_of_mass g)
  end.

(** Cells 1 to 7: the geometry and the mesh.  Only process [model_rank]
    talks to gmsh; [model_to_mesh] distributes the mesh to all. *)
Definition mesh_generation : M unit unit :=
  (* cell 1 *)
  call "gmsh.initialize";;
  when (rank =? model_rank)%nat
    (call "gmsh.model.occ.addRectangle";;
     call "gmsh.model.occ.addDisk");;
  (* cell 2 *)
  when (rank =? model_rank)%nat
    (call "gmsh.model.occ.cut";;
     call "gmsh.model.occ.synchronize");;
  (* cell 3 *)
  volumes ←
    (if (rank =? model_rank)%nat
     then volumes ← ext "gmsh.model.getEntities" getEntities;
          assert (length volumes =? 1)%nat;;
          call "gmsh.model.addPhysicalGroup";;
          call "gmsh.model.setPhysicalName";;
          mret volumes
     else mret []);
  (* cell 4 *)
  when (rank =? model_rank)%nat
    (boundaries ← ext "gmsh.model.getBoundary" (getBoundary volumes);
     _ ← tag_boundaries boundaries
           {| inflow := []; outflow := []; walls := []; obstacle := [] |};
     call "gmsh.model.addPhysicalGroup";;
     call "gmsh.model.setPhysicalName";;
     call "gmsh.model.addPhysicalGroup";;
     call "gmsh.model.setPhysicalName";;
     call "gmsh.model.addPhysicalGroup";;
     call "gmsh.model.setPhysicalName";;
     call "gmsh.model.addPhysicalGroup";;
     call "gmsh.model.setPhysicalName");;
  (* cell 5 *)
  when (rank =? model_rank)%nat
    (call "gmsh.model.mesh.field.add";;
     call "gmsh.model.mesh.field.setNumbers";;
     call "gmsh.model.mesh.field.add";;
     call "gmsh.model.mesh.field.setNumber";;
     call "gmsh.model.mesh.field.setNumber";;
     call "gmsh.model.mesh.field.setNumber";;
     call "gmsh.model.mesh.field.setNumber";;
     call "gmsh.model.mesh.field.setNumber";;
     call "gmsh.model.mesh.field.add";;
     call "gmsh.model.mesh.field.setNumbers";;
     call "gmsh.model.mesh.field.setAsBackgroundMesh");;
  (* cell 6 *)
  when (rank =? model_rank)%nat
    (call "gmsh.option.setNumber";;
     call "gmsh.option.setNumber";;
     call "gmsh.option.setNumber";;
     call "gmsh.option.setNumber";;
     call "gmsh.model.mesh.generate";;
     call "gmsh.model.mesh.setOrder";;
     call "gmsh.model.mesh.optimize");;
  (* cell 7 *)
  call "gmshio.model_to_mesh".

(** [Function(V)] and [Function(Q)] *)
Definition Function_V : M unit (list F) := ext "Function" (zeros num_dofs_V).
Definition Function_Q : M unit (list F) := ext "Function" (zeros num_dofs_Q).

(** [dirichletbc(value, locate_dofs_topological(V, fdim, ft.find(marker)))] *)
Definition boundary_condition : M unit unit :=
  call "ft.find";;
  call "locate_dofs_topological";;
  call "dirichletbc".

(** [solver = PETSc.KSP().create(mesh.comm)] and its configuration *)
Definition krylov_solver (solver pc : string) : M unit unit :=
  call "PETSc.KSP().create";;
  call (String.append solver ".setOperators");;
  call (String.append solver ".setType");;
  call (String.append solver ".getPC");;
  call (String.append pc ".setType").

(** Cells 8 to 16: parameters, function spaces, boundary conditions,
    forms, matrices, solvers, and the set-up of the diagnostics.  The
    result is the variables the time loop starts from. *)
Definition problem_definition : M unit Vars :=
  (* cell 8 *)
  let t := of_Z 0 in
  call "Constant";; call "Constant";; call "Constant";;
  (* cell 9 *)
  call "FunctionSpace";; call "FunctionSpace";;
  _ ← Function_V;
  let inlet_velocity := {| self_t := t |} in
  u_inlet ← ext "u_inlet.interpolate"
              (nodal_values_V
                 (InletVelocity_call inlet_velocity interpolation_points_V));
  boundary_condition;;                 (* bcu_inflow *)
  boundary_condition;;                 (* bcu_walls *)
  boundary_condition;;                 (* bcu_obstacle *)
  boundary_condition;;                 (* bcp_outlet *)
  (* cell 10 *)
  u_ ← Function_V;
  u_s ← Function_V;
  u_n ← Function_V;
  u_n1 ← Function_V;
  p_ ← Function_Q;
  phi ← Function_Q;
  (* cell 11 *)
  call "Constant";;
  call "form";; call "form";;
  A1 ← ext "create_matrix" (create_matrix a1);
  b1 ← ext "create_vector" (zeros num_dofs_V);
  (* cell 12 *)
  call "form";; call "form";;
  call "assemble_matrix";; call "A2.assemble";;
  b2 ← ext "create_vector" (zeros num_dofs_Q);
  (* cell 13 *)
  call "form";; call "form";;
  call "assemble_matrix";; call "A3.assemble";;
  b3 ← ext "create_vector" (zeros num_dofs_V);
  (* cell 14 *)
  krylov_solver "solver1" "pc1";;
  krylov_solver "solver2" "pc2";;
  call "pc2.setHYPREType";;
  krylov_solver "solver3" "pc3";;
  (* cell 15 *)
  call "form";; call "form";;
  let arrays :=
    if (rank =? 0)%nat
    then Some (zeros num_steps, zeros num_steps, zeros num_steps,
               zeros num_steps)
    else None in
  (* cell 16 *)
  call "BoundingBoxTree";;
  call "compute_collisions";;
  call "compute_colliding_cells";;
  call "colliding_cells.links";;
  call "colliding_cells.links";;
  let diag :=
    if (rank =? 0)%nat
    then '(C_D, C_L, t_u, t_p) ← arrays;
         Some {| C_D := C_D; C_L := C_L; t_u := t_u; t_p := t_p;
                 p_diff := zeros num_steps |}
    else None in
  mret {| t := t; inlet_velocity := inlet_velocity;
          fn := {| u_inlet := u_inlet; u_ := u_; u_s := u_s; u_n := u_n;
                   u_n1 := u_n1; p_ := p_; phi := phi |};
          A1 := A1; b1 := b1; b2 := b2; b3 := b3; diag := diag;
          plt := {| current := {| curves := []; fig_title := "" |};
                    saved := [] |} |}.

(** Cell 17: the output files, the progress bar, the loop. *)
Definition solve_time_dependent_problem : M Vars unit :=
  call "VTXWriter";;
  call "VTXWriter";;
  call "vtx_u.write";;
  call "vtx_p.write";;
  call "tqdm.autonotebook.tqdm";;
  time_loop;;
  call "vtx_u.close";;
  call "vtx_p.close".

(** pyplot *)
Definition plt_figure : M Vars unit :=
  update "plt.figure"
    (fun s => set_plt {| current := {| curves := []; fig_title := "" |};
                         saved := saved (plt s) |} s).

Definition plt_plot (x y : list F) (label : string) : M Vars unit :=
  update "plt.plot"
    (fun s =>
       set_plt
         {| current :=
              {| curves := curves (current (plt s))
                           ++ [{| xs := x; ys := y; label := label |}];
                 fig_title := fig_title (current (plt s)) |};
            saved := saved (plt s) |} s).

Definition plt_title (title : string) : M Vars unit :=
  update "plt.title"
    (fun s =>
       set_plt {| current := {| curves := curves (current (plt s));
                                fig_title := title |};
                  saved := saved (plt s) |} s).

Definition plt_savefig (file : string) : M Vars unit :=
  update "plt.savefig"
    (fun s =>
       set_plt {| current := current (plt s);
                  saved := saved (plt s) ++ [(file, current (plt s))] |} s).

(** [a[1:, j]] and [a[1:, -1]] of a table read by [np.loadtxt] *)
Definition column_from_1 (j : nat) (a : list (list F)) : list F :=
  omap (fun row => row !! j) (drop 1 a).
Definition last_column_from_1 (a : list (list F)) : list F :=
  omap last (drop 1 a).

Definition FEATFLOW : string := "FEATFLOW (42016 dofs)".

(** One figure: the script's series against the reference series. *)
Definition comparison_figure (x y : list F) (label : string)
    (x_ref y_ref : list F) (title file : string) : M Vars unit :=
  plt_figure;;
  plt_plot x y label;;
  plt_plot x_ref y_ref FEATFLOW;;
  plt_title title;;
  call "plt.grid";;
  call "plt.legend";;
  plt_savefig file.

(** Cell 18: verification using data from FEATFLOW, on process 0. *)
Definition comparison_with_FEATFLOW : M Vars unit :=
  when (rank =? 0)%nat
    (exist ← ext "os.path.exists" (os_path_exists "figures");
     when (negb exist) (call "os.mkdir");;
     let num_velocity_dofs := index_map_bs_V * size_global_V in
     let num_pressure_dofs := index_map_bs_Q * size_global_V in
     let dofs := str_int (num_velocity_dofs + num_pressure_dofs) in
     turek ← ext "np.loadtxt" (loadtxt "bdforces_lv4");
     turek_p ← ext "np.loadtxt" (loadtxt "pointvalues_lv4");
     s ← get;
     match diag s with
     | None => raise NameError
     | Some d =>
         comparison_figure (t_u d) (C_D d)
           (String.append "FEniCSx  (" (String.append dofs " dofs)"))
           (column_from_1 1 turek) (column_from_1 3 turek)
           "Drag coefficient" "figures/drag_comparison.png";;
         comparison_figure (t_u d) (C_L d)
           (String.append "FEniCSx  (" (String.append dofs " dofs)"))
           (column_from_1 1 turek) (column_from_1 4 turek)
           "Lift coefficient" "figures/lift_comparison.png";;
         comparison_figure (t_p d) (p_diff d)
           (String.append "FEniCSx (" (String.append dofs " dofs)"))
           (column_from_1 1 turek)
           (zip_with fsub (column_from_1 6 turek_p)
              (last_column_from_1 turek_p))
           "Pressure difference" "figures/pressure_comparison.png"
     end).

(** The whole notebook; the result is the variables at the end. *)
Definition notebook : M unit Vars :=
  mesh_generation;;
  vars ← problem_definition;
  run_with vars (solve_time_dependent_problem;; comparison_with_FEATFLOW).

(** ** Running the notebook *)

Definition centre_calls (boundaries : list (nat * nat)) : list Event :=
  map (fun _ => Call "gmsh.model.occ.getCenterOfMass") boundaries.

Lemma tag_boundaries_runs (boundaries : list (nat * nat)) (g : Tags) :
  exists g', tag_boundaries boundaries g ()
             = (centre_calls boundaries, Done g' ()).
Proof.
  revert g. induction boundaries as [|b bs IH]; intros g.
  - exists g. reflexivity.
  - destruct (IH (tag b (getCenterOfMass b.1 b.2) g)) as [g' Hg'].
    exists g'. cbn [tag_boundaries centre_calls map].
    cbv [mbind M_bind ext]. rewrite Hg'. reflexivity.
Qed.

(** The mesh cells, when the assertion of cell 3 holds. *)
Definition mesh_events : list Event :=
  if (rank =? model_rank)%nat
  then map Call
         ["gmsh.initialize"; "gmsh.model.occ.addRectangle";
          "gmsh.model.occ.addDisk"; "gmsh.model.occ.cut";
          "gmsh.model.occ.synchronize"; "gmsh.model.getEntities";
          "gmsh.model.addPhysicalGroup"; "gmsh.model.setPhysicalName";
          "gmsh.model.getBoundary"]
       ++ centre_calls (getBoundary getEntities)
       ++ map Call
            ["gmsh.model.addPhysicalGroup"; "gmsh.model.setPhysicalName";
             "gmsh.model.addPhysicalGroup"; "gmsh.model.setPhysicalName";
             "gmsh.model.addPhysicalGroup"; "gmsh.model.setPhysicalName";
             "gmsh.model.addPhysicalGroup"; "gmsh.model.setPhysicalName";
             "gmsh.model.mesh.field.add"; "gmsh.model.mesh.field.setNumbers";
             "gmsh.model.mesh.field.add"; "gmsh.model.mesh.field.setNumber";
             "gmsh.model.mesh.field.setNumber";
             "gmsh.model.mesh.field.setNumber";
             "gmsh.model.mesh.field.setNumber";
             "gmsh.model.mesh.field.setNumber"; "gmsh.model.mesh.field.add";
             "gmsh.model.mesh.field.setNumbers";
             "gmsh.model.mesh.field.setAsBackgroundMesh";
             "gmsh.option.setNumber"; "gmsh.option.setNumber";
             "gmsh.option.setNumber"; "gmsh.option.setNumber";
             "gmsh.model.mesh.generate"; "gmsh.model.mesh.setOrder";
             "gmsh.model.mesh.optimize"; "gmshio.model_to_mesh"]
  else map Call ["gmsh.initialize"; "gmshio.model_to_mesh"].

(** The mesh cells, when process [model_rank] does not find exactly one
    volume: the script stops at the assertion. *)
Definition mesh_events_failed : list Event :=
  map Call
    ["gmsh.initialize"; "gmsh.model.occ.addRectangle";
     "gmsh.model.occ.addDisk"; "gmsh.model.occ.cut";
     "gmsh.model.occ.synchronize"; "gmsh.model.getEntities"].

(** The script's own check in the mesh cells. *)
Definition one_volume : bool :=
  negb (rank =? model_rank)%nat || (length getEntities =? 1)%nat.

Lemma mesh_generation_runs :
  mesh_generation () =
  if one_volume then (mesh_events, Done tt ())
  else (mesh_events_failed, Raised AssertionError).
Proof.
  unfold mesh_generation, one_volume, mesh_events, mesh_events_failed.
  destruct (rank =? model_rank)%nat; [|reflexivity].
  destruct (tag_boundaries_runs (getBoundary getEntities)
              {| inflow := []; outflow := []; walls := []; obstacle := [] |})
    as [g' Hg'].
  cbv [mbind M_bind ext call when assert mret M_ret raise negb orb].
  destruct (length getEntities =? 1)%nat; [|reflexivity].
  rewrite Hg'. cbn [app map]. rewrite <- !app_assoc. reflexivity.
Qed.

Definition problem_events : list Event :=
  Eval cbv in
  map Call
    (["Constant"; "Constant"; "Constant";
      "FunctionSpace"; "FunctionSpace"; "Function"; "u_inlet.interpolate";
      "ft.find"; "locate_dofs_topological"; "dirichletbc";
      "ft.find"; "locate_dofs_topological"; "dirichletbc";
      "ft.find"; "locate_dofs_topological"; "dirichletbc";
      "ft.find"; "locate_dofs_topological"; "dirichletbc";
      "Function"; "Function"; "Function"; "Function"; "Function"; "Function";
      "Constant"; "form"; "form"; "create_matrix"; "create_vector";
      "form"; "form"; "assemble_matrix"; "A2.assemble"; "create_vector";
      "form"; "form"; "assemble_matrix"; "A3.assemble"; "create_vector";
      "PETSc.KSP().create"; "solver1.setOperators"; "solver1.setType";
      "solver1.getPC"; "pc1.setType";
      "PETSc.KSP().create"; "solver2.setOperators"; "solver2.setType";
      "solver2.getPC"; "pc2.setType"; "pc2.setHYPREType";
      "PETSc.KSP().create"; "solver3.setOperators"; "solver3.setType";
      "solver3.getPC"; "pc3.setType";
      "form"; "form";
      "BoundingBoxTree"; "compute_collisions"; "compute_colliding_cells";
      "colliding_cells.links"; "colliding_cells.links"]).

Lemma problem_definition_runs :
  problem_definition () = (problem_events, Done initial ()).
Proof.
  unfold problem_definition, initial, krylov_solver, boundary_condition,
    Function_V, Function_Q.
  cbv [mbind M_bind ext call mret M_ret option_bind].
  destruct (rank =? 0)%nat; reflexivity.
Qed.

Definition loop_events : list Event :=
  concat (map (fun _ => time_step_events) (seq 0 num_steps)).

Definition solve_events : list Event :=
  map Call ["VTXWriter"; "VTXWriter"; "vtx_u.write"; "vtx_p.write";
            "tqdm.autonotebook.tqdm"]
  ++ loop_events ++ map Call ["vtx_u.close"; "vtx_p.close"].

Lemma solve_time_dependent_problem_runs :
  solve_time_dependent_problem initial
  = (solve_events, Done tt (state_after num_steps)).
Proof.
  unfold solve_time_dependent_problem, solve_events, loop_events, time_loop.
  cbv [mbind M_bind call].
  rewrite (proj1 (loop_prefix_runs num_steps)). reflexivity.
Qed.

(** The three figures of cell 18, from the final arrays. *)
Definition own_label (spaces : string) : string :=
  String.append "FEniCSx"
    (String.append spaces
       (String.append "("
          (String.append
             (str_int (index_map_bs_V * size_global_V
                       + index_map_bs_Q * size_global_V))
             " dofs)"))).

Definition figure_of (x y : list F) (label : string) (x_ref y_ref : list F)
    (title : string) : Figure F :=
  {| curves := [{| xs := x; ys := y; label := label |};
                {| xs := x_ref; ys := y_ref; label := FEATFLOW |}];
     fig_title := title |}.

Definition figures (d : Diagnostics) : list (string * Figure F) :=
  let turek := loadtxt "bdforces_lv4" in
  let turek_p := loadtxt "pointvalues_lv4" in
  [("figures/drag_comparison.png",
    figure_of (t_u d) (C_D d) (own_label "  ")
      (column_from_1 1 turek) (column_from_1 3 turek) "Drag coefficient");
   ("figures/lift_comparison.png",
    figure_of (t_u d) (C_L d) (own_label "  ")
      (column_from_1 1 turek) (column_from_1 4 turek) "Lift coefficient");
   ("figures/pressure_comparison.png",
    figure_of (t_p d) (p_diff d) (own_label " ")
      (column_from_1 1 turek)
      (zip_with fsub (column_from_1 6 turek_p) (last_column_from_1 turek_p))
      "Pressure difference")].

Definition figure_events : list Event :=
  map Call ["plt.figure"; "plt.plot"; "plt.plot"; "plt.title"; "plt.grid";
            "plt.legend"; "plt.savefig"].

Definition comparison_events : list Event :=
  if (rank =? 0)%nat
  then Call "os.path.exists"
       :: (if os_path_exists "figures" then [] else [Call "os.mkdir"])
       ++ map Call ["np.loadtxt"; "np.loadtxt"]
       ++ figure_events ++ figure_events ++ figure_events
  else [].

(** The variables after cell 18. *)
Definition plotted (s : Vars) : Vars :=
  if (rank =? 0)%nat
  then match diag s with
       | Some d =>
           set_plt
             {| current :=
                  figure_of (t_p d) (p_diff d) (own_label " ")
                    (column_from_1 1 (loadtxt "bdforces_lv4"))
                    (zip_with fsub
                       (column_from_1 6 (loadtxt "pointvalues_lv4"))
                       (last_column_from_1 (loadtxt "pointvalues_lv4")))
                    "Pressure difference";
                saved := saved (plt s) ++ figures d |} s
       | None => s
       end
  else s.

Lemma comparison_with_FEATFLOW_runs (s : Vars) :
  arrays_exist s ->
  comparison_with_FEATFLOW s = (comparison_events, Done tt (plotted s)).
Proof.
  intros Hs.
  unfold comparison_with_FEATFLOW, comparison_events, plotted, arrays_exist in *.
  destruct (Nat.eqb_spec rank 0) as [Hr|Hr]; [|reflexivity].
  destruct (Hs Hr) as [d Hd].
  destruct s as [t0 iv f0 A b1' b2' b3' dg [cur sv]].
  cbn [diag] in Hd. subst dg.
  destruct (os_path_exists "figures");
    lazy -[app str_int String.append Z.mul Z.add column_from_1
           last_column_from_1 zip_with];
    rewrite <- !app_assoc; reflexivity.
Qed.

Definition notebook_events : list Event :=
  mesh_events ++ problem_events ++ solve_events ++ comparison_events.

(** The variables at the end of the notebook. *)
Definition final : Vars := plotted (state_after num_steps).

Lemma all_cells_run :
  notebook () =
  if one_volume then (notebook_events, Done final ())
  else (mesh_events_failed, Raised AssertionError).
Proof.
  unfold notebook, notebook_events, final. cbv [mbind M_bind run_with].
  rewrite mesh_generation_runs. destruct one_volume; [|reflexivity].
  rewrite problem_definition_runs, solve_time_dependent_problem_runs.
  rewrite comparison_with_FEATFLOW_runs
    by apply (proj2 (loop_prefix_runs num_steps)).
  reflexivity.
Qed.

End Cells.

(** ** The inlet object and the clock *)

Section Inlet.
Context {F : Type} {SF : Scalar F} {W : World F}.

Local Abbreviation InletVelocity := (InletVelocity F).
Local Abbreviation Vars := (Vars F Mat).





End Inlet.

(** ** A small concrete world

    Three processes on binary64 numbers; this one is process [rank].  The
    numerics are stand-ins (every solve returns its right-hand side), the
    communication pattern is real: process 0 owns no cell around the front
    probe point, process 2 does. *)
Module Demo.

Local Open Scope float_scope.
#[local] Set Warnings "-inexact-float".

Definition sin_stand_in (x : float) : float := x - x * x * x / 6.

Definition close (a b : float) : bool :=
  PrimFloat.leb (PrimFloat.abs (a - b)) (1e-8 + 1e-5 * PrimFloat.abs b).

Fixpoint allclose (a b : list float) : bool :=
  match a, b with
  | [], [] => true
  | x :: a', y :: b' => close x y && allclose a' b'
  | _, _ => false
  end.

Definition center (tag : nat) : list float :=
  match tag with
  | 1%nat => [1.1; 0; 0]
  | 2%nat => [2.2; 0.205; 0]
  | 3%nat => [1.1; 0.41; 0]
  | 4%nat => [0; 0.205; 0]
  | _ => [0.2; 0.2; 0]
  end.

Definition reference_rows : list (list float) :=
  [[0; 0; 0; 0; 0; 0; 0; 0];
   [1; 0.000625; 0; 0.01; 0.002; 0; 0.25; 0.125];
   [2; 0.00125; 0; 0.02; 0.001; 0; 0.5; 0.25]].

Definition world_with (volumes : list (nat * nat)) (rank : nat)
  : World float :=
  {| Mat := unit; rank := rank; size := 3;
     np_sin := sin_stand_in; np_pi := 3.141592653589793;
     float_pow := fun x n => Z.iter n (PrimFloat.mul x) 1;
     np_allclose := allclose; int := float_trunc;
     getEntities := volumes;
     getBoundary := fun _ => [(1, 1); (1, 2); (1, 3); (1, 4); (1, 5)]%nat;
     getCenterOfMass := fun _ tag => center tag;
     num_dofs_V := 4; num_dofs_Q := 2;
     interpolation_points_V :=
       [{| x0 := 0; x1 := 0.1025; x2 := 0 |};
        {| x0 := 0; x1 := 0.205; x2 := 0 |}];
     nodal_values_V := fun values => List.concat values;
     create_matrix := fun _ => tt; assembled := fun _ => tt;
     zeroEntries := fun A => A; assemble_matrix := fun _ _ A => A;
     assemble := fun A => A;
     assemble_vector := fun form fn b =>
       match form with
       | L1 => u_inlet fn
       | L2 => map (fun _ => 0.5) b
       | L3 => u_s fn
       | _ => b
       end;
     apply_lifting := fun _ _ _ b => b; ghostUpdate := fun b => b;
     set_bc := fun _ _ b => b;
     ksp_solve := fun k _ b _ =>
       (b, match k with solver2 => (-3)%Z | _ => 2%Z end);
     scatter_forward := fun x => x;
     assemble_scalar := fun form fn =>
       match form with
       | drag => hd 0 (u_ fn)
       | lift => hd 0 (p_ fn)
       | _ => 0
       end;
     front_cells := match rank with 2%nat => [11%nat] | _ => [] end;
     back_cells := match rank with 0%nat => [7%nat] | _ => [] end;
     eval_p := fun p _ _ => hd 0 p;
     others := fun _ k =>
       {| drag_part := 0.25; lift_part := -0.5;
          front_part := match k with 2%nat => Some 2 | _ => None end;
          back_part := match k with 0%nat => Some 0.5 | _ => None end |};
     os_path_exists := fun _ => false;
     loadtxt := fun _ => reference_rows;
     index_map_bs_V := 2; index_map_bs_Q := 1; size_global_V := 1000 |}.

(** The cut leaves one volume, the fluid. *)
Definition world (rank : nat) : World float := world_with [(2, 1)%nat] rank.

(** [int(T/dt)] with [T = 8] and [dt = 1/1600] in binary64. *)
Lemma num_steps_12800 (rank : nat) :
  @num_steps float _ (world rank) = Z.to_nat 12800.
Proof. vm_compute. reflexivity. Qed.

(** Process 0. *)
#[local] Instance process0 : World float := world 0.

(** The first time step on process 0: the pressure correction is
    [0.5; 0.5], multiplying it by 1 changes nothing, and the pressure
    becomes the sum. *)
Lemma splitting_scheme_first_step :
  Forall (fun v => fmul (of_Z 1) v = v) (correction initial)
  /\ p_ (fn (stepped 0 initial))
     = scatter_forward (zip_with fadd (p_ (fn initial)) (correction initial)).
Proof.
  assert (Hone : Forall (fun v => fmul (of_Z 1) v = v) (correction initial)).
  { vm_compute. repeat constructor. }
  split; [exact Hone|].
  exact (proj1 (proj2 (proj2 (proj2 (proj2
           (splitting_scheme_transcribed 0%nat initial Hone)))))).
Defined.


(** From the variables process 0 enters the loop with, the first time
    step leaves the summed lift coefficient in [C_L[0]] when run as
    process 0, and leaves the zero that was there when run as process 1 of
    the same world. *)
Lemma recording_depends_on_rank : ~ no_rank_dependent_logic.
Proof.
  intros Hno. specialize (Hno 0%nat 1%nat 0%nat initial).
  apply (f_equal (fun o => match o with
                           | Done _ s => (fun d => C_L d !! 0%nat) <$> diag s
                           | Raised _ => None
                           end)) in Hno.
  vm_compute in Hno. discriminate.
Qed.

End Demo.

End NavierStokes.

(** * Calls by name *)

Module Phases.

Definition one_of (names : list string) (callee : string) : bool :=
  existsb (String.eqb callee) names.

Definition starts_with (prefixes : list string) (callee : string) : bool :=
  existsb (fun p => String.prefix p callee) prefixes.

End Phases.

(** * The checks the scripts make *)

Module Checks.

(** The sentence of the specification: apart from the numerical
    comparisons, the scripts make no check of their own, so whatever the
    external calls return, no notebook stops at an assertion. *)
Definition no_check_of_its_own : Prop :=
  forall (F : Type) (SF : Scalar F)
         (PW : NonlinearPoisson.World F) (NW : NavierStokes.World F),
    outcome NonlinearPoisson.notebook () <> Raised AssertionError
    /\ outcome NavierStokes.notebook () <> Raised AssertionError.

Section Notebooks.
Context {F : Type} {SF : Scalar F}.
Context {PW : NonlinearPoisson.World F} {NW : NavierStokes.World F}.

Lemma plt_state_after (k : nat) :
  NavierStokes.plt (NavierStokes.state_after k)
  = NavierStokes.plt NavierStokes.initial.
Proof.
  induction k as [|k IH]; [reflexivity|].
  rewrite NavierStokes.state_after_S.
  rewrite (NavierStokes.stepped_keeps NavierStokes.plt) by reflexivity.
  rewrite NavierStokes.advanced_plt. exact IH.
Qed.

Lemma saved_final :
  NavierStokes.saved (NavierStokes.plt NavierStokes.final)
  = if (NavierStokes.rank =? 0)%nat
    then match NavierStokes.diag
                 (NavierStokes.state_after NavierStokes.num_steps) with
         | Some d => NavierStokes.figures d
         | None => []
         end
    else [].
Proof.
  unfold NavierStokes.final, NavierStokes.plotted.
  destruct (NavierStokes.rank =? 0)%nat.
  - destruct (NavierStokes.diag _) as [d|].
    + unfold NavierStokes.set_plt.
      cbn [NavierStokes.plt NavierStokes.saved].
      rewrite plt_state_after. reflexivity.
    + rewrite plt_state_after. reflexivity.
  - rewrite plt_state_after. reflexivity.
Qed.

Lemma stdout_cell8 (uh : list F) :
  stdout (NonlinearPoisson.cell8_events uh)
  = if (NonlinearPoisson.rank =? 0)%nat
    then String.append "L2-error: "
           (NonlinearPoisson.format_2e (NonlinearPoisson.error_L2 uh))
         :: match NonlinearPoisson.nodal_differences uh with
            | [] => []
            | _ => [String.append "Error_max: "
                      (NonlinearPoisson.format_2e
                         (NonlinearPoisson.error_max uh))]
            end
    else [].
Proof.
  unfold NonlinearPoisson.cell8_events, NonlinearPoisson.lines_on_rank_0.
  destruct (NonlinearPoisson.rank =? 0)%nat;
    destruct (NonlinearPoisson.nodal_differences uh); reflexivity.
Qed.

(** C6, as amended: the numerical checks are these.  The nonlinear
    Poisson notebook, once the solver has converged, computes the L2 norm
    of the difference to the manufactured solution [1 + x + 2y]
    (interpolated into the quadratic space) and the largest absolute
    nodal difference to [u_D], and prints both on process 0.  The
    Navier-Stokes notebook, on process 0, plots its drag, lift and
    pressure-difference series each against the FEATFLOW reference series
    and saves the three figures.  Besides these the scripts make two
    checks of their own, the only places where they stop themselves:
    [assert(converged)] in the nonlinear Poisson notebook, and
    [assert(len(volumes) == 1)] on the process that builds the geometry
    in the Navier-Stokes notebook. *)
Theorem accuracy_checks_and_two_assertions :
  (let '(n, converged, uh) :=
     NonlinearPoisson.solve NonlinearPoisson.the_solver
       (NonlinearPoisson.uh NonlinearPoisson.the_env) in
   if converged
   then events NonlinearPoisson.notebook ()
        = NonlinearPoisson.setup_events
          ++ [Call "log.set_log_level"; Call "solver.solve";
              Stdout (NonlinearPoisson.iterations_line n)]
          ++ NonlinearPoisson.cell8_events uh
        /\ outcome NonlinearPoisson.notebook ()
           = match NonlinearPoisson.nodal_differences uh with
             | [] => Raised ValueError
             | _ => Done (NonlinearPoisson.error_L2 uh,
                          NonlinearPoisson.error_max uh) ()
             end
   else outcome NonlinearPoisson.notebook () = Raised AssertionError)
  /\ (forall uh : list F,
        stdout (NonlinearPoisson.cell8_events uh)
        = if (NonlinearPoisson.rank =? 0)%nat
          then String.append "L2-error: "
                 (NonlinearPoisson.format_2e
                    (fsqrt
                       (NonlinearPoisson.allreduce_SUM
                          (NonlinearPoisson.assemble_scalar
                             NonlinearPoisson.error_form
                             (NonlinearPoisson.error_coefficients uh)))))
               :: match NonlinearPoisson.nodal_differences uh with
                  | [] => []
                  | v :: rest =>
                      [String.append "Error_max: "
                         (NonlinearPoisson.format_2e
                            (NonlinearPoisson.allreduce_MAX
                               (fold_left fmax rest v)))]
                  end
          else [])
  /\ outcome NavierStokes.notebook ()
     = (if NavierStokes.one_volume
        then Done NavierStokes.final ()
        else Raised AssertionError)
  /\ NavierStokes.saved (NavierStokes.plt NavierStokes.final)
     = (if (NavierStokes.rank =? 0)%nat
        then match NavierStokes.diag
                     (NavierStokes.state_after NavierStokes.num_steps) with
             | Some d => NavierStokes.figures d
             | None => []
             end
        else []).
Proof.
  split.
  { unfold events, outcome.
    rewrite NonlinearPoisson.notebook_runs, NonlinearPoisson.cell7_runs.
    destruct (NonlinearPoisson.solve _ _) as [[n converged] uh].
    destruct converged; [|reflexivity].
    rewrite NonlinearPoisson.cell8_runs. split; reflexivity. }
  split.
  { intros uh. rewrite stdout_cell8.
    unfold NonlinearPoisson.error_L2, NonlinearPoisson.error_max.
    destruct (NonlinearPoisson.rank =? 0)%nat; [|reflexivity].
    destruct (NonlinearPoisson.nodal_differences uh); reflexivity. }
  split; [|apply saved_final].
  unfold outcome. rewrite NavierStokes.all_cells_run.
  destruct NavierStokes.one_volume; reflexivity.
Qed.

End Notebooks.

(** With a Newton solver that does not converge the nonlinear Poisson
    notebook stops at its assertion. *)
Lemma assertions_are_checks : ~ no_check_of_its_own.
Proof.
  intros Hno.
  destruct (Hno float _ (NonlinearPoisson.Demo.world false)
              (NavierStokes.Demo.world 0)) as [Hpoisson _].
  apply Hpoisson. vm_compute. reflexivity.
Qed.

(** With two volumes left by the cut, the Navier-Stokes notebook stops at
    its assertion on process 0, right after [getEntities]. *)
Example two_volumes_stop_the_script :
  @NavierStokes.notebook float _
    (NavierStokes.Demo.world_with [(2, 1); (2, 2)]%nat 0) ()
  = (NavierStokes.mesh_events_failed, Raised AssertionError).
Proof. vm_compute. reflexivity. Qed.

End Checks.

(** * Lemmas on event logs *)

Lemma calls_app (l1 l2 : list Event) : calls (l1 ++ l2) = calls l1 ++ calls l2.
Proof. apply omap_app. Qed.

Lemma stdout_app (l1 l2 : list Event) :
  stdout (l1 ++ l2) = stdout l1 ++ stdout l2.
Proof. apply omap_app. Qed.

Lemma calls_repeated {B} (l : list Event) (xs : list B) :
  calls (concat (map (fun _ => l) xs))
  = concat (map (fun _ => calls l) xs).
Proof.
  induction xs as [|x xs IH]; [reflexivity|].
  cbn [map concat]. rewrite calls_app, IH. reflexivity.
Qed.

Lemma filter_repeated {A B} (P : A -> bool) (l : list A) (xs : list B) :
  List.filter P l = [] ->
  List.filter P (concat (map (fun _ => l) xs)) = [].
Proof.
  intros Hl. induction xs as [|x xs IH]; [reflexivity|].
  cbn [map concat]. rewrite List.filter_app, Hl, IH. reflexivity.
Qed.

(** * The mesh cells of the Navier-Stokes notebook *)

Module MeshCells.
Import NavierStokes.

Section Tagging.
Context {F : Type} {SF : Scalar F} {W : World F}.

(** The tests of the loop over the boundary curves, on a curve's centre of
    mass as gmsh returns it. *)
Definition centre (boundary : nat * nat) : list F :=
  getCenterOfMass boundary.1 boundary.2.

Definition at_inlet (boundary : nat * nat) : bool :=
  np_allclose (centre boundary) [of_Z 0; fdiv H (of_Z 2); of_Z 0].

Definition at_outlet (boundary : nat * nat) : bool :=
  np_allclose (centre boundary) [L; fdiv H (of_Z 2); of_Z 0].

Definition at_wall (boundary : nat * nat) : bool :=
  np_allclose (centre boundary) [fdiv L (of_Z 2); H; of_Z 0]
  || np_allclose (centre boundary) [fdiv L (of_Z 2); of_Z 0; of_Z 0].

Definition no_tags : Tags :=
  {| inflow := []; outflow := []; walls := []; obstacle := [] |}.

(** The four lists after the loop over [boundaries]. *)
Definition tagged (boundaries : list (nat * nat)) (g : Tags) : Tags :=
  fold_left (fun g boundary => tag boundary (centre boundary) g) boundaries g.

Definition tags_of (test : nat * nat -> bool) (boundaries : list (nat * nat))
  : list nat :=
  map snd (List.filter test boundaries).

Lemma tag_boundaries_tagged (boundaries : list (nat * nat)) (g : Tags) :
  tag_boundaries boundaries g ()
  = (centre_calls boundaries, Done (tagged boundaries g) ()).
Proof.
  revert g. induction boundaries as [|b bs IH]; intros g; [reflexivity|].
  cbn [tag_boundaries centre_calls map tagged fold_left].
  cbv [mbind M_bind ext]. rewrite IH. reflexivity.
Qed.

Lemma tagged_lists (boundaries : list (nat * nat)) (g : Tags) :
  inflow (tagged boundaries g) = inflow g ++ tags_of at_inlet boundaries
  /\ outflow (tagged boundaries g)
     = outflow g
       ++ tags_of (fun b => negb (at_inlet b) && at_outlet b) boundaries
  /\ walls (tagged boundaries g)
     = walls g
       ++ tags_of (fun b => negb (at_inlet b) && negb (at_outlet b)
                            && at_wall b) boundaries
  /\ obstacle (tagged boundaries g)
     = obstacle g
       ++ tags_of (fun b => negb (at_inlet b) && negb (at_outlet b)
                            && negb (at_wall b)) boundaries.
Proof.
  revert g. induction boundaries as [|b bs IH]; intros g.
  - unfold tags_of. cbn. rewrite !app_nil_r. auto.
  - cbn [tagged fold_left]. fold (tagged bs (tag b (centre b) g)).
    destruct (IH (tag b (centre b) g)) as (-> & -> & -> & ->).
    unfold tags_of. cbn [List.filter]. unfold tag.
    fold (at_inlet b). fold (at_outlet b). fold (at_wall b).
    destruct (at_inlet b), (at_outlet b), (at_wall b);
      cbn [inflow outflow walls obstacle negb andb map];
      rewrite <- ?app_assoc; auto.
Qed.

Lemma tagged_all (boundaries : list (nat * nat)) (g : Tags) :
  inflow (tagged boundaries g) ++ outflow (tagged boundaries g)
  ++ walls (tagged boundaries g) ++ obstacle (tagged boundaries g)
  ≡ₚ (inflow g ++ outflow g ++ walls g ++ obstacle g) ++ map snd boundaries.
Proof.
  revert g. induction boundaries as [|b bs IH]; intros g.
  - cbn. rewrite app_nil_r. reflexivity.
  - cbn [tagged fold_left map]. fold (tagged bs (tag b (centre b) g)).
    rewrite IH. unfold tag.
    destruct (np_allclose _ _); [|destruct (np_allclose _ _);
      [|destruct (_ || _)]]; cbn [inflow outflow walls obstacle];
      solve_Permutation.
Qed.

(** X1: the loop over the boundary curves puts the tag of every curve in
    exactly one of the four lists, in the order of the curves, asking gmsh
    for one centre of mass per curve.  The tests are tried in the order
    inlet, outlet, walls: a curve goes to the first list whose test its
    centre passes, and a curve whose centre passes none is the obstacle's. *)
Theorem every_boundary_tagged_once (boundaries : list (nat * nat)) :
  exists g,
    tag_boundaries boundaries no_tags ()
    = (map (fun _ => Call "gmsh.model.occ.getCenterOfMass") boundaries,
       Done g ())
    /\ inflow g = tags_of at_inlet boundaries
    /\ outflow g
       = tags_of (fun b => negb (at_inlet b) && at_outlet b) boundaries
    /\ walls g
       = tags_of (fun b => negb (at_inlet b) && negb (at_outlet b)
                           && at_wall b) boundaries
    /\ obstacle g
       = tags_of (fun b => negb (at_inlet b) && negb (at_outlet b)
                           && negb (at_wall b)) boundaries
    /\ inflow g ++ outflow g ++ walls g ++ obstacle g ≡ₚ map snd boundaries.
Proof.
  exists (tagged boundaries no_tags).
  split; [apply tag_boundaries_tagged|].
  destruct (tagged_lists boundaries no_tags) as (Hi & Ho & Hw & Hb).
  repeat split; try assumption.
  apply (tagged_all boundaries no_tags).
Qed.

End Tagging.

Section Ranks.
Context {F : Type} {SF : Scalar F} {W : World F}.

(** X2: a process whose rank is not [model_rank] builds no geometry.  In
    the mesh cells it initialises gmsh and takes part in the distribution
    of the mesh, and that is all: it asks gmsh for nothing, and it cannot
    stop at the assertion on the number of volumes. *)
Theorem geometry_built_on_model_rank_only :
  rank <> model_rank ->
  mesh_generation ()
  = ([Call "gmsh.initialize"; Call "gmshio.model_to_mesh"], Done tt ()).
Proof.
  intros Hr. unfold mesh_generation.
  destruct (Nat.eqb_spec rank model_rank) as [E|_]; [contradiction|].
  reflexivity.
Qed.

Lemma calls_centre_calls (boundaries : list (nat * nat)) :
  calls (centre_calls boundaries)
  = map (fun _ => "gmsh.model.occ.getCenterOfMass") boundaries.
Proof.
  induction boundaries as [|b bs IH]; [reflexivity|].
  cbn [centre_calls map]. unfold calls in *. cbn [omap list_omap].
  f_equal. exact IH.
Qed.

Lemma mesh_events_end :
  exists before, calls mesh_events = before ++ ["gmshio.model_to_mesh"].
Proof.
  unfold mesh_events. destruct (rank =? model_rank)%nat.
  - rewrite !calls_app.
    match goal with
    | |- context [calls ?a ++ calls ?b ++ calls ?c] =>
        exists (calls a ++ calls b ++ removelast (calls c))
    end.
    rewrite <- !app_assoc. reflexivity.
  - exists ["gmsh.initialize"]. reflexivity.
Qed.

(** X3: the mesh cells stop only at the script's assertion, and only on
    process [model_rank] when the cut does not leave exactly one volume.
    The assertion comes before any physical group is defined and before
    the mesh is distributed: a run that stops has called neither.  A run
    that finishes ends with the distribution of the mesh. *)
Theorem assertion_before_groups_and_distribution :
  (outcome mesh_generation () = Raised AssertionError
   <-> rank = model_rank /\ length getEntities <> 1%nat)
  /\ (forall e, outcome mesh_generation () = Raised e ->
        e = AssertionError
        /\ ~ In "gmsh.model.addPhysicalGroup"
                (calls (events mesh_generation ()))
        /\ ~ In "gmshio.model_to_mesh" (calls (events mesh_generation ())))
  /\ (outcome mesh_generation () = Done tt () ->
        last (calls (events mesh_generation ()))
        = Some "gmshio.model_to_mesh").
Proof.
  unfold outcome, events. rewrite mesh_generation_runs. unfold one_volume.
  destruct (Nat.eqb_spec rank model_rank) as [Hr|Hr];
    destruct (Nat.eqb_spec (length getEntities) 1) as [Hv|Hv];
    cbn [negb orb fst snd].
  - split; [split; [discriminate | intros [_ H]; contradiction]|].
    split; [discriminate|]. intros _.
    destruct mesh_events_end as [before ->]. apply last_snoc.
  - split; [split; auto|].
    split; [|discriminate]. intros e [= <-].
    split; [reflexivity|]. split; cbn; intuition discriminate.
  - split; [split; [discriminate | intros [H _]; contradiction]|].
    split; [discriminate|]. intros _.
    destruct mesh_events_end as [before ->]. apply last_snoc.
  - split; [split; [discriminate | intros [H _]; contradiction]|].
    split; [discriminate|]. intros _.
    destruct mesh_events_end as [before ->]. apply last_snoc.
Qed.

End Ranks.

(** Process 1 of the three-process world. *)
Module Demo.

Lemma geometry_not_built_on_process_1 :
  @rank float (NavierStokes.Demo.world 1) <> model_rank
  /\ @mesh_generation float _ (NavierStokes.Demo.world 1) ()
     = ([Call "gmsh.initialize"; Call "gmshio.model_to_mesh"], Done tt ()).
Proof.
  assert (H : @rank float (NavierStokes.Demo.world 1) <> model_rank)
    by discriminate.
  split; [exact H|].
  exact (@geometry_built_on_model_rank_only float _
           (NavierStokes.Demo.world 1) H).
Defined.

End Demo.

End MeshCells.

(** * The inlet velocity *)

Module InletProfile.
Import Python NavierStokes.

Section Shape.
Context {F : Type} {SF : Scalar F} {W : World F}.

(** X4: whatever the time and the points, [InletVelocity.__call__] returns
    an array of shape (gdim, N) for the N points it is given (also for
    none): two rows of N entries, the second of which, the velocity across
    the channel, is zero throughout. *)
Theorem inlet_values_shape (self : InletVelocity F) (x : list Point) :
  length (InletVelocity_call self x) = gdim
  /\ Forall (fun row => length row = length x) (InletVelocity_call self x)
  /\ InletVelocity_call self x !! 1%nat = Some (zeros (length x)).
Proof.
  unfold InletVelocity_call, gdim, zeros. cbn [repeat].
  split; [reflexivity|]. split.
  - repeat constructor; [apply length_map | apply repeat_length].
  - cbn. f_equal. induction (length x) as [|n IH]; [reflexivity|].
    cbn. f_equal. exact IH.
Qed.

End Shape.

(** ** On binary64 numbers *)

#[local] Set Warnings "-inexact-float".

Section Walls.
Context {W : World float}.

Local Open Scope float_scope.

(** A float that is a zero (of either sign) or not a number. *)
Definition zero_or_nan (v : float) : Prop :=
  match Prim2SF v with
  | S754_zero _ | S754_nan => True
  | _ => False
  end.

Lemma mul_zero_or_nan_l (a b : float) : zero_or_nan a -> zero_or_nan (a * b).
Proof.
  unfold zero_or_nan. rewrite mul_spec.
  destruct (Prim2SF a), (Prim2SF b); cbn; tauto.
Qed.

Lemma mul_zero_or_nan_r (a b : float) : zero_or_nan b -> zero_or_nan (a * b).
Proof.
  unfold zero_or_nan. rewrite mul_spec.
  destruct (Prim2SF a), (Prim2SF b); cbn; tauto.
Qed.

Lemma div_zero_or_nan (a d : float) : zero_or_nan a -> zero_or_nan (a / d).
Proof.
  unfold zero_or_nan. rewrite div_spec.
  destruct (Prim2SF a), (Prim2SF d); cbn; tauto.
Qed.

Lemma is_zero_zero_or_nan (v : float) : is_zero v = true -> zero_or_nan v.
Proof.
  unfold is_zero, zero_or_nan. rewrite FloatAxioms.eqb_spec.
  destruct (Prim2SF v) as [s| s| |s m e]; cbn; auto; try discriminate.
  - destruct s; discriminate.
  - destruct s; discriminate.
Qed.

Lemma zero_or_nan_classify (v : float) :
  zero_or_nan v -> is_zero v = true \/ is_nan v = true.
Proof.
  unfold zero_or_nan, is_zero, is_nan. rewrite !FloatAxioms.eqb_spec.
  destruct (Prim2SF v); cbn; auto; contradiction.
Qed.

(** The entry of row 0 for the point [p]. *)
Definition inflow_at (self : InletVelocity float) (p : Point) : float :=
  4 * 1.5 * np_sin (self_t self * np_pi / 8) * x1 p * (0.41 - x1 p)
  / float_pow 0.41 2.

Lemma inlet_row_0 (self : InletVelocity float) (x : list Point) :
  InletVelocity_call self x !! 0%nat = Some (map (inflow_at self) x).
Proof. reflexivity. Qed.

Lemma inflow_at_wall (self : InletVelocity float) (p : Point) :
  is_zero (x1 p) = true \/ x1 p = 0.41 -> zero_or_nan (inflow_at self p).
Proof.
  intros Hp. unfold inflow_at. apply div_zero_or_nan.
  destruct Hp as [H0|HH].
  - apply mul_zero_or_nan_l, mul_zero_or_nan_r, is_zero_zero_or_nan, H0.
  - apply mul_zero_or_nan_r. rewrite HH. vm_compute. exact I.
Qed.

(** X5: the inflow profile vanishes on the two walls of the channel.  On
    binary64 numbers, at every time and whatever [np.sin], [np.pi] and the
    power return, the inflow velocity at a point with [x[1]] zero (the
    lower wall) or [x[1] = 0.41] (the upper wall) is a zero; the only other
    result is not-a-number (when one of these functions returns an infinity
    or not-a-number, or the power is zero), never a velocity other than
    zero. *)
Theorem inflow_vanishes_on_the_walls
    (self : InletVelocity float) (x : list Point) (j : nat) (p : Point) :
  x !! j = Some p ->
  is_zero (x1 p) = true \/ x1 p = 0.41 ->
  exists row v,
    InletVelocity_call self x !! 0%nat = Some row
    /\ row !! j = Some v
    /\ v = 4 * 1.5 * np_sin (self_t self * np_pi / 8) * x1 p * (0.41 - x1 p)
           / float_pow 0.41 2
    /\ (is_zero v = true \/ is_nan v = true).
Proof.
  intros Hj Hp. exists (map (inflow_at self) x), (inflow_at self p).
  split; [apply inlet_row_0|].
  split; [rewrite list_lookup_fmap, Hj; reflexivity|].
  split; [reflexivity|].
  apply zero_or_nan_classify, inflow_at_wall, Hp.
Qed.

(** X6: the inflow is the parabolic profile times [sin(t pi / 8)], so
    where the sine is zero there is no inflow: on binary64 numbers, for
    every point, the inflow velocity is then a zero (or not-a-number, when
    the coordinate or the power is an infinity or not-a-number, or the
    power is zero).  With [sin(0) = 0] this is the start at [t = 0]: the
    flow starts from rest. *)
Theorem no_inflow_when_sine_vanishes
    (self : InletVelocity float) (x : list Point) :
  is_zero (np_sin (self_t self * np_pi / 8)) = true ->
  exists row,
    InletVelocity_call self x !! 0%nat = Some row
    /\ length row = length x
    /\ Forall (fun v => is_zero v = true \/ is_nan v = true) row.
Proof.
  intros Hsin. exists (map (inflow_at self) x).
  split; [apply inlet_row_0|]. split; [apply length_map|].
  apply Forall_map, Forall_true. intros p. cbn.
  apply zero_or_nan_classify. unfold inflow_at.
  apply div_zero_or_nan, mul_zero_or_nan_l, mul_zero_or_nan_l.
  apply mul_zero_or_nan_r, is_zero_zero_or_nan, Hsin.
Qed.

End Walls.

(** A point of the upper wall, at time 1, in the three-process world. *)
Module Demo.

Local Open Scope float_scope.

Definition upper_wall : @Point float := {| x0 := 0; x1 := 0.41; x2 := 0 |}.
Definition mid_channel : @Point float := {| x0 := 0; x1 := 0.205; x2 := 0 |}.

Lemma inflow_zero_at_upper_wall :
  [upper_wall] !! 0%nat = Some upper_wall
  /\ (is_zero (x1 upper_wall) = true \/ x1 upper_wall = 0.41)
  /\ exists row v,
       @InletVelocity_call float _ (NavierStokes.Demo.world 0)
         {| self_t := 1 |} [upper_wall] !! 0%nat = Some row
       /\ row !! 0%nat = Some v
       /\ (is_zero v = true \/ is_nan v = true).
Proof.
  split; [reflexivity|]. split; [right; reflexivity|].
  destruct (@inflow_vanishes_on_the_walls (NavierStokes.Demo.world 0)
              {| self_t := 1 |} [upper_wall] 0%nat upper_wall
              eq_refl (or_intror eq_refl))
    as (row & v & Hrow & Hv & _ & Hzero).
  exists row, v. auto.
Defined.

Lemma no_inflow_at_the_start :
  is_zero (@np_sin float (NavierStokes.Demo.world 0)
             (0 * @np_pi float (NavierStokes.Demo.world 0) / 8)) = true
  /\ exists row,
       @InletVelocity_call float _ (NavierStokes.Demo.world 0)
         {| self_t := 0 |} [mid_channel; upper_wall] !! 0%nat = Some row
       /\ length row = 2%nat.
Proof.
  split; [reflexivity|].
  destruct (@no_inflow_when_sine_vanishes (NavierStokes.Demo.world 0)
              {| self_t := 0 |} [mid_channel; upper_wall] eq_refl)
    as (row & Hrow & Hlen & _).
  exists row. auto.
Defined.

End Demo.

End InletProfile.

(** * The recorded time series *)

Module TimeSeries.
Import NavierStokes.

Section Arrays.
Context {F : Type} {SF : Scalar F} {W : World F}.

(** The script's clock after [k] time steps: [t = 0] and then [t += dt],
    [k] times over. *)
Definition clock (k : nat) : F := Nat.iter k (fun t => fadd t dt) (of_Z 0).

Lemma t_state_after (k : nat) : t (state_after k) = clock k.
Proof.
  induction k as [|k IH]; [reflexivity|].
  rewrite state_after_S, stepped_t, advanced_t, IH. reflexivity.
Qed.

(** X7: on process 0, after [n] iterations of the loop, [t_u[i]] is the
    clock of time step [i], which is the sum accumulated by [i + 1]
    additions of [dt] to 0 (not the product [(i + 1) * dt]), and [t_p[i]]
    is that time less [dt / 2]: the pressure is recorded half a time step
    before the velocity.  The clock itself then stands at [n] additions. *)
Theorem times_recorded (i n : nat) :
  rank = 0%nat -> (i < n)%nat -> (i < num_steps)%nat ->
  exists (s : Vars F Mat) (d : Diagnostics F),
    outcome (for_each (seq 0 n) time_step) initial = Done tt s
    /\ t s = Nat.iter n (fun t => fadd t dt) (of_Z 0)
    /\ diag s = Some d
    /\ t_u d !! i = Some (Nat.iter (S i) (fun t => fadd t dt) (of_Z 0))
    /\ t_p d !! i
       = Some (fsub (Nat.iter (S i) (fun t => fadd t dt) (of_Z 0))
                 (fdiv dt (of_Z 2))).
Proof.
  intros Hr Hin Hi.
  destruct (diag_state_after n Hr) as (d & Hd & Hinv).
  destruct (below n d Hinv i Hin Hi) as (Hu & Hp & _).
  assert (Ht : t (at_step i) = clock (S i)).
  { unfold at_step. rewrite advanced_t, t_state_after. reflexivity. }
  rewrite Ht in Hu, Hp.
  exists (state_after n), d. unfold outcome.
  rewrite (proj1 (loop_prefix_runs n)). cbn [snd].
  split; [reflexivity|]. split; [apply t_state_after|]. auto.
Qed.





(** On a single process, a gather returns the process's own value. *)
Lemma gathered_serial {A} (own : A) (other : nat -> A) :
  rank = 0%nat -> size = 1%nat -> gathered own other = [own].
Proof.
  intros Hr Hs. unfold gathered. rewrite Hr, Hs. reflexivity.
Qed.

(** X9: in a run on a single process, with [s_i] the variables the loop
    reaches in iteration [i] when it comes to compute the physical
    quantities: after [n > i] iterations the recorded coefficients
    [C_D[i]] and [C_L[i]] are the process's own integrals (added to the
    int 0 that Python's [sum] starts from), and [p_diff[i]] is taken
    between the two pressures the process evaluated itself, each in the
    first cell found for its point; a point without a cell contributes
    nothing. *)
Theorem serial_run_records_own_values (i n : nat) :
  rank = 0%nat -> size = 1%nat -> (i < n)%nat -> (i < num_steps)%nat ->
  exists (s_i s_n : Vars F Mat) (d : Diagnostics F),
    outcome (for_each (seq 0 i) time_step;; advance) initial = Done tt s_i
    /\ outcome (for_each (seq 0 n) time_step) initial = Done tt s_n
    /\ diag s_n = Some d
    /\ C_D d !! i = Some (fadd (of_Z 0) (assemble_scalar drag (fn s_i)))
    /\ C_L d !! i = Some (fadd (of_Z 0) (assemble_scalar lift (fn s_i)))
    /\ p_diff d !! i
       = Some match
                (if (0 <? length front_cells)%nat
                 then Some (eval_p (p_ (fn s_i)) points_0
                              (take 1 front_cells))
                 else None),
                (if (0 <? length back_cells)%nat
                 then Some (eval_p (p_ (fn s_i)) points_1
                              (take 1 back_cells))
                 else None)
              with
              | Some front, Some back => fsub front back
              | Some front, None => front
              | None, Some back => fsub (of_Z 0) back
              | None, None => of_Z 0
              end.
Proof.
  intros Hr Hs Hin Hi.
  destruct (diag_state_after n Hr) as (d & Hd & Hinv).
  destruct (below n d Hinv i Hin Hi) as (_ & _ & HD & HL & HP).
  exists (at_step i), (state_after n), d. unfold outcome.
  rewrite loop_then_advance_runs, (proj1 (loop_prefix_runs n)). cbn [snd].
  split; [reflexivity|]. split; [reflexivity|]. split; [exact Hd|].
  unfold drag_coeff, lift_coeff, p_front, p_back in *.
  rewrite !(gathered_serial _ _ Hr Hs) in *.
  cbn [own drag_part lift_part front_part back_part] in *.
  split; [exact HD|]. split; [exact HL|].
  rewrite HP. unfold pressure_difference, probed.
  destruct (0 <? length front_cells)%nat, (0 <? length back_cells)%nat;
    reflexivity.
Qed.

End Arrays.

(** Process 0 of the three-process world. *)
Module Demo.

(** The world of process 0 run on its own: one process, which owns the
    cells around both probe points. *)
Definition serial : World float :=
  let w := NavierStokes.Demo.world 0 in
  {| Mat := @Mat _ w; rank := 0; size := 1;
     np_sin := @np_sin _ w; np_pi := @np_pi _ w;
     float_pow := @float_pow _ w; np_allclose := @np_allclose _ w;
     int := @int _ w;
     getEntities := @getEntities _ w; getBoundary := @getBoundary _ w;
     getCenterOfMass := @getCenterOfMass _ w;
     num_dofs_V := @num_dofs_V _ w; num_dofs_Q := @num_dofs_Q _ w;
     interpolation_points_V := @interpolation_points_V _ w;
     nodal_values_V := @nodal_values_V _ w;
     create_matrix := @create_matrix _ w; assembled := @assembled _ w;
     zeroEntries := @zeroEntries _ w;
     assemble_matrix := @assemble_matrix _ w;
     assemble := @assemble _ w; assemble_vector := @assemble_vector _ w;
     apply_lifting := @apply_lifting _ w; ghostUpdate := @ghostUpdate _ w;
     set_bc := @set_bc _ w; ksp_solve := @ksp_solve _ w;
     scatter_forward := @scatter_forward _ w;
     assemble_scalar := @assemble_scalar _ w;
     front_cells := [11%nat]; back_cells := [7%nat];
     eval_p := @eval_p _ w; others := @others _ w;
     os_path_exists := @os_path_exists _ w; loadtxt := @loadtxt _ w;
     index_map_bs_V := @index_map_bs_V _ w;
     index_map_bs_Q := @index_map_bs_Q _ w;
     size_global_V := @size_global_V _ w |}.

Lemma serial_first_step :
  @rank float serial = 0%nat /\ @size float serial = 1%nat
  /\ (0 < 1)%nat /\ (0 < @num_steps float _ serial)%nat
  /\ exists (s_i s_n : Vars float (@Mat float serial)) d,
       outcome (for_each (seq 0 0) (@time_step float _ serial);;
                @advance float _ serial) (@initial float _ serial)
       = Done tt s_i
       /\ outcome (for_each (seq 0 1) (@time_step float _ serial))
            (@initial float _ serial) = Done tt s_n
       /\ diag s_n = Some d
       /\ C_D d !! 0%nat
          = Some (fadd (of_Z 0) (@assemble_scalar float serial drag (fn s_i))).
Proof.
  assert (Hn : (0 < @num_steps float _ serial)%nat).
  { apply Nat.ltb_lt. vm_compute. reflexivity. }
  split; [reflexivity|]. split; [reflexivity|]. split; [lia|].
  split; [exact Hn|].
  destruct (@serial_run_records_own_values float _ serial 0 1
              eq_refl eq_refl (le_n 1) Hn)
    as (s_i & s_n & d & Hsi & Hsn & Hd & HD & _).
  exists s_i, s_n, d. auto.
Defined.

Lemma first_time_recorded :
  @rank float NavierStokes.Demo.process0 = 0%nat
  /\ (0 < 1)%nat
  /\ (0 < @num_steps float _ NavierStokes.Demo.process0)%nat
  /\ exists (s : Vars float (@Mat float NavierStokes.Demo.process0)) d,
       outcome (for_each (seq 0 1)
                  (@time_step float _ NavierStokes.Demo.process0))
         (@initial float _ NavierStokes.Demo.process0) = Done tt s
       /\ diag s = Some d
       /\ t_u d !! 0%nat = Some (fadd (of_Z 0) dt).
Proof.
  assert (Hn : (0 < @num_steps float _ NavierStokes.Demo.process0)%nat).
  { unfold NavierStokes.Demo.process0.
    rewrite NavierStokes.Demo.num_steps_12800. lia. }
  split; [reflexivity|]. split; [lia|]. split; [exact Hn|].
  destruct (@times_recorded float _ NavierStokes.Demo.process0 0 1
              eq_refl (le_n 1) Hn) as (s & d & Hs & _ & Hd & Hu & _).
  exists s, d. auto.
Defined.


End Demo.

End TimeSeries.

(** * How often the loop calls what *)

Module CallCounts.
Import NavierStokes.

(** The number of calls of [api] in a run. *)
Definition count (api : string) (l : list Event) : nat :=
  length (List.filter (String.eqb api) (calls l)).

Lemma count_app (api : string) (l1 l2 : list Event) :
  count api (l1 ++ l2) = (count api l1 + count api l2)%nat.
Proof.
  unfold count, calls. rewrite omap_app, List.filter_app. apply length_app.
Qed.

Lemma count_repeated {A} (api : string) (l : list Event) (xs : list A) :
  count api (concat (map (fun _ => l) xs)) = (length xs * count api l)%nat.
Proof.
  induction xs as [|x xs IH]; [reflexivity|].
  cbn [map concat length]. rewrite count_app, IH. lia.
Qed.

Section Loop.
Context {F : Type} {SF : Scalar F} {W : World F}.

(** The calls of one time step that do not depend on which probe points
    this process owns: all but [p_.eval]. *)
Lemma count_time_step (api : string) :
  String.eqb api "p_.eval" = false ->
  count api time_step_events
  = count api (advance_events
               ++ map Call ["assemble_scalar"; "mesh.comm.gather";
                            "assemble_scalar"; "mesh.comm.gather";
                            "mesh.comm.gather"; "mesh.comm.gather"]).
Proof.
  intros Hapi.
  unfold time_step_events, physical_quantities_events, probe_events.
  change (map Call ["assemble_scalar"; "mesh.comm.gather"; "assemble_scalar";
                    "mesh.comm.gather"; "mesh.comm.gather";
                    "mesh.comm.gather"])
    with ([Call "assemble_scalar"; Call "mesh.comm.gather";
           Call "assemble_scalar"; Call "mesh.comm.gather"]
          ++ [Call "mesh.comm.gather"] ++ [Call "mesh.comm.gather"]).
  rewrite !count_app.
  assert (Hp : count api [Call "p_.eval"] = 0%nat).
  { unfold count. cbn. rewrite Hapi. reflexivity. }
  change (count api []) with 0%nat.
  destruct (0 <? length front_cells)%nat, (0 <? length back_cells)%nat;
    rewrite ?Hp; change (count api []) with 0%nat; lia.
Qed.

Lemma count_loop (api : string) :
  count api loop_events = (num_steps * count api time_step_events)%nat.
Proof.
  unfold loop_events. rewrite count_repeated, length_seq. reflexivity.
Qed.

Lemma count_solve_events (api : string) :
  count api solve_events
  = (count api (map Call ["VTXWriter"; "VTXWriter"; "vtx_u.write";
                          "vtx_p.write"; "tqdm.autonotebook.tqdm"])
     + num_steps * count api time_step_events
     + count api (map Call ["vtx_u.close"; "vtx_p.close"]))%nat.
Proof.
  unfold solve_events. rewrite !count_app, count_loop. lia.
Qed.

Ltac count_in_loop :=
  rewrite count_solve_events, count_time_step by reflexivity;
  vm_compute count; lia.

(** X10: the loop cell writes the velocity and the pressure to their
    output files once before the loop and once in every time step,
    [num_steps + 1] times each, opens each file once, and closes the two
    files once, as its last two calls, after every write. *)
Theorem output_written_every_step :
  let l := events solve_time_dependent_problem initial in
  count "VTXWriter" l = 2%nat
  /\ count "vtx_u.write" l = S num_steps
  /\ count "vtx_p.write" l = S num_steps
  /\ count "vtx_u.close" l = 1%nat
  /\ count "vtx_p.close" l = 1%nat
  /\ exists before, calls l = before ++ ["vtx_u.close"; "vtx_p.close"].
Proof.
  unfold events. rewrite solve_time_dependent_problem_runs. cbn [fst].
  repeat split; try count_in_loop.
  unfold solve_events, calls. rewrite !omap_app.
  eexists. rewrite app_assoc. reflexivity.
Qed.

(** X11: only the matrix of the tentative velocity step changes with time.
    The cells before the loop assemble the matrices of the pressure
    correction and of the velocity correction, once each, and the loop
    never assembles them again; the matrix of step 1 is zeroed and
    assembled once in every time step. *)
Theorem only_first_matrix_reassembled :
  let before := events problem_definition () in
  let loop := events solve_time_dependent_problem initial in
  count "create_matrix" before = 1%nat
  /\ count "assemble_matrix" before = 2%nat
  /\ count "A2.assemble" before = 1%nat
  /\ count "A3.assemble" before = 1%nat
  /\ count "A1.assemble" before = 0%nat
  /\ count "A1.zeroEntries" loop = num_steps
  /\ count "assemble_matrix" loop = num_steps
  /\ count "A1.assemble" loop = num_steps
  /\ count "A2.assemble" loop = 0%nat
  /\ count "A3.assemble" loop = 0%nat
  /\ count "create_matrix" loop = 0%nat.
Proof.
  unfold events.
  rewrite problem_definition_runs, solve_time_dependent_problem_runs.
  cbn [fst].
  repeat split; try reflexivity; count_in_loop.
Qed.

End Loop.

End CallCounts.

(** * What each process prints, records and plots *)

Module Output.

Section Poisson.
Import NonlinearPoisson.
Context {F : Type} {SF : Scalar F} {W : NonlinearPoisson.World F}.

Lemma stdout_lines_on_rank_0 (lines : list string) :
  stdout (lines_on_rank_0 lines) = if (rank =? 0)%nat then lines else [].
Proof.
  unfold lines_on_rank_0. destruct (rank =? 0)%nat; [|reflexivity].
  induction lines as [|line lines IH]; [reflexivity|].
  cbn [map]. unfold stdout in *. cbn [omap list_omap]. rewrite IH.
  reflexivity.
Qed.

(** X12: what a run of the nonlinear Poisson notebook prints, process by
    process.  The iteration count is printed by every process, since that
    [print] is not guarded by the rank; the two error lines are printed by
    process 0 only, after it, the L2 error first.  Nothing else is
    printed, and nothing at all when the solver does not converge. *)
Theorem printed_lines_by_rank :
  let '(n, converged, uh) := solve the_solver (uh the_env) in
  stdout (events notebook ())
  = if converged
    then String.append "Number of interations: " (str_int n)
         :: (if (rank =? 0)%nat
             then String.append "L2-error: " (format_2e (error_L2 uh))
                  :: match nodal_differences uh with
                     | [] => []
                     | _ => [String.append "Error_max: "
                               (format_2e (error_max uh))]
                     end
             else [])
    else [].
Proof.
  unfold events. rewrite notebook_runs, cell7_runs.
  destruct (solve the_solver _) as [[n converged] uh].
  destruct converged; [|reflexivity].
  rewrite cell8_runs. cbn [fst]. unfold cell8_events.
  rewrite !stdout_app.
  change (stdout setup_events) with (@nil string).
  change (stdout (map Call ?l)) with (@nil string).
  destruct (nodal_differences uh) as [|v rest].
  - rewrite stdout_lines_on_rank_0.
    destruct (rank =? 0)%nat; reflexivity.
  - change (Call "domain.comm.allreduce" :: ?l)
      with ([Call "domain.comm.allreduce"] ++ l).
    rewrite stdout_app, !stdout_lines_on_rank_0.
    destruct (rank =? 0)%nat; reflexivity.
Qed.

End Poisson.

Section NavierStokes.
Import NavierStokes.
Context {F : Type} {SF : Scalar F} {W : NavierStokes.World F}.

(** The calls that record to disk or plot in the last cell. *)
Definition plots_or_files (callee : string) : bool :=
  Phases.starts_with ["plt."; "os."; "np.loadtxt"] callee.

Lemma no_plots_in_time_step :
  List.filter plots_or_files (calls time_step_events) = [].
Proof.
  unfold time_step_events, physical_quantities_events, probe_events.
  destruct (0 <? length front_cells)%nat, (0 <? length back_cells)%nat;
    reflexivity.
Qed.

Lemma diag_state_after_other (k : nat) :
  rank <> 0%nat -> diag (state_after k) = None.
Proof.
  intros Hr. apply Nat.eqb_neq in Hr.
  induction k as [|k IH].
  - unfold state_after, run, initial. cbn [seq fold_left diag].
    rewrite Hr. reflexivity.
  - rewrite state_after_S, stepped_diag, Hr. exact IH.
Qed.

Lemma communication_loop (start n : nat) :
  length (communication
            (concat (map (fun _ => time_step_events) (seq start n))))
  = (4 * n)%nat.
Proof.
  revert start. induction n as [|n IH]; intros start; [reflexivity|].
  cbn [seq map concat]. rewrite communication_app, length_app, IH.
  rewrite communication_time_step. cbn [length]. lia.
Qed.



(** X13: a process of rank other than 0 runs the whole notebook without
    stopping, whatever the external calls return.  It takes part in all
    the gathers, four in each of the [num_steps] time steps, but it holds
    no array of diagnostics at the end, makes no call to the file system,
    to [np.loadtxt] or to pyplot, and saves no figure. *)
Theorem other_processes_only_contribute :
  rank <> 0%nat ->
  outcome notebook () = Done final ()
  /\ length (communication (events notebook ())) = (4 * num_steps)%nat
  /\ diag final = None
  /\ List.filter plots_or_files (calls (events notebook ())) = []
  /\ saved (plt final) = [].
Proof.
  intros Hr. pose proof Hr as Hr'. apply Nat.eqb_neq in Hr'.
  assert (Hone : one_volume = true).
  { unfold one_volume, model_rank. rewrite Hr'. reflexivity. }
  assert (Hmesh : mesh_events
                  = map Call ["gmsh.initialize"; "gmshio.model_to_mesh"]).
  { unfold mesh_events, model_rank. rewrite Hr'. reflexivity. }
  assert (Hcmp : comparison_events = []).
  { unfold comparison_events. rewrite Hr'. reflexivity. }
  assert (Hfinal : final = state_after num_steps).
  { unfold final, plotted. rewrite Hr'. reflexivity. }
  unfold outcome, events. rewrite all_cells_run, Hone. cbn [fst snd].
  split; [reflexivity|].
  unfold notebook_events, solve_events, loop_events.
  rewrite Hmesh, Hcmp, app_nil_r.
  split.
  { rewrite !communication_app, !length_app, communication_loop.
    repeat match goal with
           | |- context [length (communication ?l)] =>
               let v := eval vm_compute in (length (communication l)) in
               change (length (communication l)) with v
           end.
    lia. }
  split; [rewrite Hfinal; apply diag_state_after_other, Hr|].
  split.
  { rewrite !calls_app, !List.filter_app, calls_repeated.
    rewrite (filter_repeated _ _ _ no_plots_in_time_step). reflexivity. }
  rewrite Checks.saved_final, Hr'. reflexivity.
Qed.


End NavierStokes.

(** Processes 1 and 0 of the three-process world. *)
Module Demo.
Import NavierStokes.

Lemma process_1_only_contributes :
  @rank float (NavierStokes.Demo.world 1) <> 0%nat
  /\ outcome (@notebook float _ (NavierStokes.Demo.world 1)) ()
     = Done (@final float _ (NavierStokes.Demo.world 1)) ()
  /\ saved (plt (@final float _ (NavierStokes.Demo.world 1))) = [].
Proof.
  assert (H : @rank float (NavierStokes.Demo.world 1) <> 0%nat)
    by discriminate.
  destruct (@other_processes_only_contribute float _
              (NavierStokes.Demo.world 1) H) as (Hrun & _ & _ & _ & Hsaved).
  auto.
Defined.


End Demo.

End Output.
